(** * The filtered-list data controller ([useBackendFilters])

    A shallow embedding of the generic backend-filtering hook of
    [src/hooks/useAssignments.ts]: the search-term sanitiser, the query
    translator of [fetchData], and the pagination / load-state controller
    with its two effects and the realtime invalidation callback. *)

From Stdlib Require Import List String Ascii ZArith Bool Lia Permutation.
Import ListNotations.
Local Open Scope string_scope.

(* ================================================================== *)
(** ** Search-term sanitisation *)
(* ================================================================== *)

Module SearchTerm.

(** Characters are code units below 256.  [String.prototype.trim] strips
    the ECMAScript white-space and line-terminator characters; the ones
    in this range are TAB, LF, VT, FF, CR, SPACE and NBSP. *)
Definition isWhiteSpace (c : ascii) : bool :=
  let n := nat_of_ascii c in
  ((9 <=? n)%nat && (n <=? 13)%nat) || (n =? 32)%nat || (n =? 160)%nat.

Fixpoint trimStart (s : string) : string :=
  match s with
  | EmptyString => EmptyString
  | String c s' => if isWhiteSpace c then trimStart s' else s
  end.

Fixpoint trimEnd (s : string) : string :=
  match s with
  | EmptyString => EmptyString
  | String c s' =>
      match trimEnd s' with
      | EmptyString => if isWhiteSpace c then EmptyString else String c EmptyString
      | t => String c t
      end
  end.

(** [s.trim()] *)
Definition trim (s : string) : string := trimEnd (trimStart s).

(** The character class of the regular expression [/[,(\)]/g]. *)
Definition isSpecial (c : ascii) : bool :=
  Ascii.eqb c ","%char || Ascii.eqb c "("%char || Ascii.eqb c ")"%char.

(** [s.replace(/[,(\)]/g, ' ')]: every match is replaced by one space. *)
Fixpoint replaceSpecial (s : string) : string :=
  match s with
  | EmptyString => EmptyString
  | String c s' => String (if isSpecial c then " "%char else c) (replaceSpecial s')
  end.

(** [const safeTerm = debouncedSearchTerm.trim().replace(/[,(\)]/g, ' ')] *)
Definition safeTerm (debouncedSearchTerm : string) : string :=
  replaceSpecial (trim debouncedSearchTerm).

(** Truthiness of a JavaScript string: non-empty. *)
Definition truthy (s : string) : bool :=
  match s with EmptyString => false | _ => true end.

(** [c] occurs in [s]. *)
Fixpoint occurs (c : ascii) (s : string) : bool :=
  match s with
  | EmptyString => false
  | String d s' => Ascii.eqb c d || occurs c s'
  end.

(** [xs.join(',')] *)
Fixpoint join (sep : string) (xs : list string) : string :=
  match xs with
  | [] => EmptyString
  | [x] => x
  | x :: rest => x ++ sep ++ join sep rest
  end.

(** Splitting at every occurrence of a separator character, the way the
    backend reads the alternatives of an or-filter. *)
Fixpoint split_at (sep : ascii) (s : string) : list string :=
  match s with
  | EmptyString => [EmptyString]
  | String c s' =>
      if Ascii.eqb sep c then EmptyString :: split_at sep s'
      else match split_at sep s' with
           | [] => [String c EmptyString]
           | x :: rest => String c x :: rest
           end
  end.

(** [`${field}.ilike.%${safeTerm}%`] *)
Definition ilike_condition (safe field : string) : string :=
  field ++ ".ilike.%" ++ safe ++ "%".

(** [config.searchFields.map(...).join(',')], the argument of [query.or]. *)
Definition search_or_string (searchFields : list string) (term : string) : string :=
  join "," (map (ilike_condition (safeTerm term)) searchFields).

(** Every character of the string is white space. *)
Fixpoint all_white (s : string) : bool :=
  match s with
  | EmptyString => true
  | String c s' => isWhiteSpace c && all_white s'
  end.

End SearchTerm.

(* ================================================================== *)
(** ** Backend queries: syntax and row semantics *)
(* ================================================================== *)

Module Query.
Import SearchTerm.

(** A table row: column name to value, [None] for SQL [NULL]. *)
Definition Row : Type := string -> option string.

(** One alternative of an or-filter string. *)
Inductive cond : Type :=
| c_eq (column value : string)        (* [col.eq.value] *)
| c_ilike (column pattern : string)   (* [col.ilike.pattern] *)
| c_is_null (column : string)         (* [col.is.null] *)
| c_gte (column value : string).      (* [col.gte.value] *)

(** One call on the query builder. *)
Inductive clause : Type :=
| Q_eq (column value : string)                        (* [.eq(col, v)] *)
| Q_in (column : string) (values : list string)       (* [.in(col, vs)] *)
| Q_is_null (column : string)                         (* [.is(col, null)] *)
| Q_not_is_null (column : string)                     (* [.not(col, 'is', null)] *)
| Q_lt (column value : string)                        (* [.lt(col, v)] *)
| Q_or (conds : list cond) (foreignTable : option string)  (* [.or(str, opts)] *)
| Q_order (column : string) (ascending : bool)        (* [.order(col, {ascending})] *)
| Q_range (from to : Z).                              (* [.range(from, to)] *)

(** A query is the sequence of builder calls, in application order. *)
Definition query : Type := list clause.

(** The text of one alternative, as the template strings of the source
    write it. *)
Definition render_cond (c : cond) : string :=
  match c with
  | c_eq col v => col ++ ".eq." ++ v
  | c_ilike col p => col ++ ".ilike." ++ p
  | c_is_null col => col ++ ".is.null"
  | c_gte col v => col ++ ".gte." ++ v
  end.

(** The string handed to [query.or]. *)
Definition filters_string (cs : list cond) : string :=
  join "," (map render_cond cs).

(** What the data backend decides and the controller does not: pattern
    matching, the ordering of column values, filters on an embedded
    foreign table, the ordering of rows, and the shape of embedded
    resources. *)
Class Backend : Type := {
  ilike : string -> string -> bool;
  value_lt : string -> string -> bool;
  foreign_or : string -> list cond -> Row -> bool;
  sort_rows : string -> bool -> list Row -> list Row;
  (* [event.quotation_source?.[0]?.quotation_details] of an embedded row *)
  source_quotation_details : Row -> option string
}.

Definition has_value (r : Row) (col v : string) : bool :=
  match r col with Some x => String.eqb x v | None => false end.

Definition is_null (r : Row) (col : string) : bool :=
  match r col with Some _ => false | None => true end.

Definition sat_cond {B : Backend} (r : Row) (c : cond) : bool :=
  match c with
  | c_eq col v => has_value r col v
  | c_ilike col p => match r col with Some x => ilike x p | None => false end
  | c_is_null col => is_null r col
  | c_gte col v => match r col with Some x => negb (value_lt x v) | None => false end
  end.

(** Whether a row passes one builder call; ordering and windowing do not
    filter. *)
Definition sat {B : Backend} (r : Row) (cl : clause) : bool :=
  match cl with
  | Q_eq col v => has_value r col v
  | Q_in col vs => existsb (has_value r col) vs
  | Q_is_null col => is_null r col
  | Q_not_is_null col => negb (is_null r col)
  | Q_lt col v => match r col with Some x => value_lt x v | None => false end
  | Q_or cs None => existsb (sat_cond r) cs
  | Q_or cs (Some t) => foreign_or t cs r
  | Q_order _ _ => true
  | Q_range _ _ => true
  end.

(** Builder calls are conjoined. *)
Definition matches {B : Backend} (r : Row) (q : query) : bool :=
  forallb (sat r) q.

(** The closed row interval [[from, to]]. *)
Definition window (from to : Z) (rows : list Row) : list Row :=
  firstn (Z.to_nat (to - from + 1)) (skipn (Z.to_nat from) rows).

Definition post {B : Backend} (rows : list Row) (cl : clause) : list Row :=
  match cl with
  | Q_order col asc => sort_rows col asc rows
  | Q_range from to => window from to rows
  | _ => rows
  end.

(** Executing a query on a table: the page of rows and the exact count
    of all matching rows ([select(..., { count: 'exact' })]). *)
Definition run_query {B : Backend} (table : list Row) (q : query) : list Row * Z :=
  let matched := filter (fun r => matches r q) table in
  (fold_left post q matched, Z.of_nat (List.length matched)).

(** Columns a condition or a builder call tests. *)
Definition cond_column (c : cond) : string :=
  match c with
  | c_eq col _ | c_ilike col _ | c_is_null col | c_gte col _ => col
  end.

Definition tests_column (col : string) (cl : clause) : bool :=
  match cl with
  | Q_eq c _ | Q_in c _ | Q_is_null c | Q_not_is_null c | Q_lt c _ => String.eqb c col
  | Q_or cs _ => existsb (fun c => String.eqb (cond_column c) col) cs
  | Q_order _ _ | Q_range _ _ => false
  end.


Definition is_foreign (cl : clause) : bool :=
  match cl with Q_or _ (Some _) => true | _ => false end.

End Query.

(* ================================================================== *)
(** ** Configuration and the query translator of [fetchData] *)
(* ================================================================== *)

Module Hook.
Import SearchTerm Query.

Record FilterOption : Type := {
  key : string;
  queryBuilder : option (query -> query)
}.

Record FilterConfig : Type := {
  tableName : string;
  searchFields : list string;
  filterOptions : list FilterOption;
  defaultSort : option string;
  cfg_pageSize : option Z
}.

(** The fields of [profile] that the hook reads. *)
Record Profile : Type := {
  profile_id : string;
  profile_role : string
}.

Inductive SortOrder : Type := asc | desc.

(** [arr.includes(key)] *)
Definition includes (ks : list string) (k : string) : bool :=
  existsb (String.eqb k) ks.

Definition roleKeys : list string :=
  ["photographer"; "cinematographer"; "editor"; "drone"].

Definition staffStatusKeys : list string :=
  ["staff_incomplete"; "staff_complete"; "no_staff"].

Definition roleFilters (activeFilters : list string) : list string :=
  filter (includes roleKeys) activeFilters.

Definition staffStatusFilters (activeFilters : list string) : list string :=
  filter (includes staffStatusKeys) activeFilters.

Definition otherFilters (activeFilters : list string) : list string :=
  filter (fun k => negb (includes (roleKeys ++ staffStatusKeys) k)) activeFilters.

(** [roleMap] of the pre-filter step. *)
Definition roleMap (k : string) : option string :=
  if k =? "photographer" then Some "Photographer"
  else if k =? "cinematographer" then Some "Cinematographer"
  else if k =? "editor" then Some "Editor"
  else if k =? "drone" then Some "Drone"
  else None.

(** [roleFilters.map(key => roleMap[key])]; every role key is mapped. *)
Definition roleConditions (activeFilters : list string) : list string :=
  flat_map (fun k => match roleMap k with Some v => [v] | None => [] end)
           (roleFilters activeFilters).

(** The own entries of the object literal [fieldMappings]: filter key
    to (field, value). *)
Definition fieldMappings_table : list (string * (string * string)) :=
  [
    ("freelancer_photographer", ("role", "Photographer"));
    ("freelancer_cinematographer", ("role", "Cinematographer"));
    ("freelancer_drone_pilot", ("role", "Drone Pilot"));
    ("freelancer_editor", ("role", "Editor"));
    ("other_role", ("role", "Other"));
    ("photographer", ("role", "Photographer"));
    ("cinematographer", ("role", "Cinematographer"));
    ("editor", ("role", "Editor"));
    ("drone", ("role", "Drone Pilot"));
    ("credit", ("entry_type", "Credit"));
    ("debit", ("entry_type", "Debit"));
    ("assets", ("entry_type", "Assets"));
    ("cameras", ("category", "Cameras"));
    ("lenses", ("category", "Lenses"));
    ("lighting_equipment", ("category", "Lighting Equipment"));
    ("audio_equipment", ("category", "Audio Equipment"));
    ("drones", ("category", "Drones"));
    ("stabilizers", ("category", "Stabilizers & Gimbals"));
    ("tripods", ("category", "Tripods & Stands"));
    ("storage", ("category", "Storage & Backup"));
    ("computer", ("category", "Computer & Software"));
    ("office_equipment", ("category", "Office Equipment"));
    ("vehicles", ("category", "Vehicles"));
    ("studio_rent", ("category", "Studio Rent"));
    ("utilities", ("category", "Utilities"));
    ("marketing_expense", ("category", "Marketing"));
    ("insurance", ("category", "Insurance"));
    ("maintenance_expense", ("category", "Maintenance"));
    ("travel_expense", ("category", "Travel"));
    ("staff_salary", ("category", "Staff Salary"));
    ("freelancer_payment", ("category", "Freelancer Payment"));
    ("bank_charges", ("category", "Bank Charges"));
    ("taxes", ("category", "Taxes"));
    ("loan_emi", ("category", "Loan & EMI"));
    ("event_revenue", ("category", "Event Revenue"));
    ("other_income", ("category", "Other Income"));
    ("other_expense", ("category", "Other Expense"));
    ("custom", ("category", "Custom"));
    ("completed", ("status", "Completed"));
    ("in_progress", ("status", "In Progress"));
    ("pending", ("status", "Pending"));
    ("waiting_response", ("status", "Waiting for Response"));
    ("accepted", ("status", "Accepted"));
    ("declined", ("status", "Declined"));
    ("on_hold", ("status", "On Hold"));
    ("under_review", ("status", "Under Review"));
    ("reported", ("status", "Reported"));
    ("urgent_priority", ("priority", "Urgent"));
    ("medium_priority", ("priority", "Medium"));
    ("low_priority", ("priority", "Low"));
    ("photo_editing", ("task_type", "Photo Editing"));
    ("video_editing", ("task_type", "Video Editing"));
    ("other_task", ("task_type", "Other"));
    ("wedding", ("event_type", "Wedding"));
    ("pre_wedding", ("event_type", "Pre-Wedding"));
    ("ring_ceremony", ("event_type", "Ring-Ceremony"));
    ("maternity", ("event_type", "Maternity Photography"));
    ("others", ("event_type", "Others"));
    ("equipment", ("category", "Equipment"));
    ("travel", ("category", "Travel"));
    ("food", ("category", "Food"));
    ("salary", ("category", "Salary"));
    ("marketing", ("category", "Marketing"));
    ("maintenance", ("category", "Maintenance"));
    ("accommodation", ("category", "Accommodation"));
    ("software", ("category", "Software"));
    ("other", ("category", "Other"));
    ("cash_payment", ("payment_method", "Cash"));
    ("digital_payment", ("payment_method", "Digital"))
  ].

(** The property names every object literal inherits from
    [Object.prototype]. *)
Definition inherited_names : list string :=
  ["constructor"; "toString"; "toLocaleString"; "valueOf"; "hasOwnProperty";
   "isPrototypeOf"; "propertyIsEnumerable"; "__proto__"; "__defineGetter__";
   "__defineSetter__"; "__lookupGetter__"; "__lookupSetter__"].

(** What an inherited member answers to [.field] and [.value]:
    [undefined], which reads [undefined] as the key of [filterGroups],
    as the column handed to [query.in] and as the value in the filter
    text. *)
Definition undefined_mapping : string * string := ("undefined", "undefined").

(** [fieldMappings[filterKey]] when truthy.  An own entry answers with
    its record; an inherited name answers with a function or the
    prototype object, truthy as well, whose [field] and [value] are
    [undefined]. *)
Definition fieldMappings (filterKey : string) : option (string * string) :=
  match find (fun e => fst e =? filterKey) fieldMappings_table with
  | Some e => Some (snd e)
  | None =>
      if includes inherited_names filterKey then Some undefined_mapping else None
  end.

(** One entry of [filterGroups]. *)
Record Group : Type := {
  values : list string;
  filterKeys : list string
}.

(** [filterGroups]: a JavaScript object, enumerated by [Object.entries]
    in insertion order of its keys. *)
Definition Groups : Type := list (string * Group).

(** The body of the grouping loop for a mapped key: create the group on
    first use, then push the value and the key. *)
Fixpoint group_push (field value filterKey : string) (gs : Groups) : Groups :=
  match gs with
  | [] => [(field, {| values := [value]; filterKeys := [filterKey] |})]
  | (f, g) :: rest =>
      if f =? field
      then (f, {| values := values g ++ [value];
                  filterKeys := filterKeys g ++ [filterKey] |}) :: rest
      else (f, g) :: group_push field value filterKey rest
  end.

Definition group_step (gs : Groups) (filterKey : string) : Groups :=
  match fieldMappings filterKey with
  | Some (field, value) => group_push field value filterKey gs
  | None => gs
  end.

Definition filterGroups (others : list string) : Groups :=
  fold_left group_step others [].

(** [groupedFilters]: the keys with a static mapping. *)
Definition groupedFilters (others : list string) : list string :=
  filter (fun k => match fieldMappings k with Some _ => true | None => false end) others.

(** [Object.entries(filterGroups).forEach(... query.in(field, group.values))] *)
Definition grouped_clauses (others : list string) : list clause :=
  flat_map (fun '(field, g) =>
              if (0 <? List.length (values g))%nat then [Q_in field (values g)] else [])
           (filterGroups others).

Definition remainingFilters (others : list string) : list string :=
  filter (fun k => negb (includes (groupedFilters others) k)) others.

(** The mutual exclusions applied to the remaining keys of quotations. *)
Definition finalRemainingFilters (cfg : FilterConfig) (others : list string) : list string :=
  let remaining := remainingFilters others in
  if tableName cfg =? "quotations" then
    let hasConverted := includes remaining "converted" in
    let hasPending := includes remaining "pending" in
    let hasExpired := includes remaining "expired" in
    let hasValid := includes remaining "valid" in
    filter (fun k =>
              if hasConverted && (k =? "pending") then false
              else if hasPending && (k =? "converted") then false
              else if hasExpired && (k =? "valid") then false
              else if hasValid && (k =? "expired") then false
              else true) remaining
  else remaining.

(** [config.filterOptions.find(f => f.key === filterKey)?.queryBuilder] *)
Definition builder_of (cfg : FilterConfig) (filterKey : string) : option (query -> query) :=
  match find (fun f => key f =? filterKey) (filterOptions cfg) with
  | Some f => queryBuilder f
  | None => None
  end.

Definition apply_builder (cfg : FilterConfig) (q : query) (filterKey : string) : query :=
  match builder_of cfg filterKey with
  | Some qb => qb q
  | None => q
  end.

Definition isAdmin (profile : option Profile) : bool :=
  match profile with
  | Some p => profile_role p =? "Admin"
  | None => false
  end.

(** [profile?.id] when truthy. *)
Definition profile_id_of (profile : option Profile) : option string :=
  match profile with
  | Some p => if truthy (profile_id p) then Some (profile_id p) else None
  | None => None
  end.

(** Role-based visibility: the first builder calls of the main query. *)
Definition scope_clauses (cfg : FilterConfig) (profile : option Profile)
    (currentFirmId : string) : list clause :=
  if tableName cfg =? "tasks" then
    if isAdmin profile then [Q_eq "firm_id" currentFirmId]
    else match profile_id_of profile with
         | Some pid => [Q_eq "assigned_to" pid]
         | None => []
         end
  else if tableName cfg =? "event_staff_assignments" then
    if isAdmin profile then [Q_eq "firm_id" currentFirmId]
    else match profile_id_of profile with
         | Some pid => [Q_or [c_eq "staff_id" pid; c_eq "freelancer_id" pid] None]
         | None => []
         end
  else [Q_eq "firm_id" currentFirmId].

(** The status / validity block of quotations. *)
Definition quotation_status (today : string) (activeFilters : list string) : list clause :=
  let isConverted := includes activeFilters "converted" in
  let isPending := includes activeFilters "pending" in
  let isExpired := includes activeFilters "expired" in
  let isValid := includes activeFilters "valid" in
  if isConverted then [Q_not_is_null "converted_to_event"]
  else
    Q_is_null "converted_to_event" ::
    (if isExpired then [Q_lt "valid_until" today]
     else if isValid || isPending
          then [Q_or [c_is_null "valid_until"; c_gte "valid_until" today] None]
          else [Q_or [c_is_null "valid_until"; c_gte "valid_until" today] None]).

(** The search block. *)
Definition search_clauses (cfg : FilterConfig) (isSearchActive : bool)
    (debouncedSearchTerm : string) : list clause :=
  if isSearchActive && truthy (trim debouncedSearchTerm) then
    let safe := safeTerm debouncedSearchTerm in
    let baseFields := map (fun field => c_ilike field ("%" ++ safe ++ "%")) (searchFields cfg) in
    (if (0 <? List.length baseFields)%nat then [Q_or baseFields None] else []) ++
    (if (tableName cfg =? "events") || (tableName cfg =? "quotations")
     then [Q_or [c_ilike "name" ("%" ++ safe ++ "%")] (Some "clients")]
     else [])
  else [].

(** *** The pre-filter join step of events *)

Definition needs_prefilter (cfg : FilterConfig) (activeFilters : list string) : bool :=
  (tableName cfg =? "events") && (0 <? List.length (roleFilters activeFilters))%nat.

(** The query on [event_staff_assignments]. *)
Definition prefilter_query (currentFirmId : string) (activeFilters : list string) : query :=
  [Q_eq "firm_id" currentFirmId; Q_in "role" (roleConditions activeFilters)].

(** [[...new Set(xs)]]: first occurrences, in order. *)
Fixpoint uniq_from (seen xs : list string) : list string :=
  match xs with
  | [] => []
  | x :: rest =>
      if includes seen x then uniq_from seen rest
      else x :: uniq_from (x :: seen) rest
  end.

Definition uniq (xs : list string) : list string := uniq_from [] xs.

Definition no_match_id : string := "00000000-0000-0000-0000-000000000000".

(** [eventIdsFilter] from the assignment rows; [event_id] is a non-null
    column of the assignments. *)
Definition eventIdsFilter_of (assignments : list Row) : list string :=
  let ids := uniq (flat_map (fun a => match a "event_id" with
                                      | Some i => [i]
                                      | None => []
                                      end) assignments) in
  if (List.length ids =? 0)%nat then [no_match_id] else ids.

(** *** Hook state *)

Record UseBackendFiltersOptions : Type := {
  opt_pageSize : option Z;
  enableRealtime : bool;
  initialFilters : option (list string);
  initialSearchTerm : option string
}.

(** What the hook reads from its surroundings: its two arguments, the
    authentication context, and the date at the time of a fetch. *)
Record Env : Type := {
  config : FilterConfig;
  options : UseBackendFiltersOptions;
  currentFirmId : option string;
  profile : option Profile;
  today : string
}.

(** The [useState] cells of the hook ([debouncedSearchTerm] is the cell
    of [useDebounce]). *)
Record State : Type := {
  data : list Row;
  loading : bool;
  isFirstLoad : bool;
  paginationLoading : bool;
  searchTerm : string;
  debouncedSearchTerm : string;
  isSearchActive : bool;
  activeFilters : list string;
  sortBy : string;
  sortOrder : SortOrder;
  totalCount : Z;
  currentPage : Z;
  allDataLoaded : bool;
  pageSize : Z
}.

Definition setData (v : list Row) (st : State) : State :=
  {| data := v;
     loading := loading st;
     isFirstLoad := isFirstLoad st;
     paginationLoading := paginationLoading st;
     searchTerm := searchTerm st;
     debouncedSearchTerm := debouncedSearchTerm st;
     isSearchActive := isSearchActive st;
     activeFilters := activeFilters st;
     sortBy := sortBy st;
     sortOrder := sortOrder st;
     totalCount := totalCount st;
     currentPage := currentPage st;
     allDataLoaded := allDataLoaded st;
     pageSize := pageSize st |}.

Definition setLoading (v : bool) (st : State) : State :=
  {| data := data st;
     loading := v;
     isFirstLoad := isFirstLoad st;
     paginationLoading := paginationLoading st;
     searchTerm := searchTerm st;
     debouncedSearchTerm := debouncedSearchTerm st;
     isSearchActive := isSearchActive st;
     activeFilters := activeFilters st;
     sortBy := sortBy st;
     sortOrder := sortOrder st;
     totalCount := totalCount st;
     currentPage := currentPage st;
     allDataLoaded := allDataLoaded st;
     pageSize := pageSize st |}.

Definition setIsFirstLoad (v : bool) (st : State) : State :=
  {| data := data st;
     loading := loading st;
     isFirstLoad := v;
     paginationLoading := paginationLoading st;
     searchTerm := searchTerm st;
     debouncedSearchTerm := debouncedSearchTerm st;
     isSearchActive := isSearchActive st;
     activeFilters := activeFilters st;
     sortBy := sortBy st;
     sortOrder := sortOrder st;
     totalCount := totalCount st;
     currentPage := currentPage st;
     allDataLoaded := allDataLoaded st;
     pageSize := pageSize st |}.

Definition setPaginationLoading (v : bool) (st : State) : State :=
  {| data := data st;
     loading := loading st;
     isFirstLoad := isFirstLoad st;
     paginationLoading := v;
     searchTerm := searchTerm st;
     debouncedSearchTerm := debouncedSearchTerm st;
     isSearchActive := isSearchActive st;
     activeFilters := activeFilters st;
     sortBy := sortBy st;
     sortOrder := sortOrder st;
     totalCount := totalCount st;
     currentPage := currentPage st;
     allDataLoaded := allDataLoaded st;
     pageSize := pageSize st |}.

Definition setSearchTerm (v : string) (st : State) : State :=
  {| data := data st;
     loading := loading st;
     isFirstLoad := isFirstLoad st;
     paginationLoading := paginationLoading st;
     searchTerm := v;
     debouncedSearchTerm := debouncedSearchTerm st;
     isSearchActive := isSearchActive st;
     activeFilters := activeFilters st;
     sortBy := sortBy st;
     sortOrder := sortOrder st;
     totalCount := totalCount st;
     currentPage := currentPage st;
     allDataLoaded := allDataLoaded st;
     pageSize := pageSize st |}.

Definition setDebouncedValue (v : string) (st : State) : State :=
  {| data := data st;
     loading := loading st;
     isFirstLoad := isFirstLoad st;
     paginationLoading := paginationLoading st;
     searchTerm := searchTerm st;
     debouncedSearchTerm := v;
     isSearchActive := isSearchActive st;
     activeFilters := activeFilters st;
     sortBy := sortBy st;
     sortOrder := sortOrder st;
     totalCount := totalCount st;
     currentPage := currentPage st;
     allDataLoaded := allDataLoaded st;
     pageSize := pageSize st |}.

Definition setIsSearchActive (v : bool) (st : State) : State :=
  {| data := data st;
     loading := loading st;
     isFirstLoad := isFirstLoad st;
     paginationLoading := paginationLoading st;
     searchTerm := searchTerm st;
     debouncedSearchTerm := debouncedSearchTerm st;
     isSearchActive := v;
     activeFilters := activeFilters st;
     sortBy := sortBy st;
     sortOrder := sortOrder st;
     totalCount := totalCount st;
     currentPage := currentPage st;
     allDataLoaded := allDataLoaded st;
     pageSize := pageSize st |}.

Definition setActiveFilters (v : list string) (st : State) : State :=
  {| data := data st;
     loading := loading st;
     isFirstLoad := isFirstLoad st;
     paginationLoading := paginationLoading st;
     searchTerm := searchTerm st;
     debouncedSearchTerm := debouncedSearchTerm st;
     isSearchActive := isSearchActive st;
     activeFilters := v;
     sortBy := sortBy st;
     sortOrder := sortOrder st;
     totalCount := totalCount st;
     currentPage := currentPage st;
     allDataLoaded := allDataLoaded st;
     pageSize := pageSize st |}.

Definition setSortBy (v : string) (st : State) : State :=
  {| data := data st;
     loading := loading st;
     isFirstLoad := isFirstLoad st;
     paginationLoading := paginationLoading st;
     searchTerm := searchTerm st;
     debouncedSearchTerm := debouncedSearchTerm st;
     isSearchActive := isSearchActive st;
     activeFilters := activeFilters st;
     sortBy := v;
     sortOrder := sortOrder st;
     totalCount := totalCount st;
     currentPage := currentPage st;
     allDataLoaded := allDataLoaded st;
     pageSize := pageSize st |}.

Definition setSortOrder (v : SortOrder) (st : State) : State :=
  {| data := data st;
     loading := loading st;
     isFirstLoad := isFirstLoad st;
     paginationLoading := paginationLoading st;
     searchTerm := searchTerm st;
     debouncedSearchTerm := debouncedSearchTerm st;
     isSearchActive := isSearchActive st;
     activeFilters := activeFilters st;
     sortBy := sortBy st;
     sortOrder := v;
     totalCount := totalCount st;
     currentPage := currentPage st;
     allDataLoaded := allDataLoaded st;
     pageSize := pageSize st |}.

Definition setTotalCount (v : Z) (st : State) : State :=
  {| data := data st;
     loading := loading st;
     isFirstLoad := isFirstLoad st;
     paginationLoading := paginationLoading st;
     searchTerm := searchTerm st;
     debouncedSearchTerm := debouncedSearchTerm st;
     isSearchActive := isSearchActive st;
     activeFilters := activeFilters st;
     sortBy := sortBy st;
     sortOrder := sortOrder st;
     totalCount := v;
     currentPage := currentPage st;
     allDataLoaded := allDataLoaded st;
     pageSize := pageSize st |}.

Definition setCurrentPage (v : Z) (st : State) : State :=
  {| data := data st;
     loading := loading st;
     isFirstLoad := isFirstLoad st;
     paginationLoading := paginationLoading st;
     searchTerm := searchTerm st;
     debouncedSearchTerm := debouncedSearchTerm st;
     isSearchActive := isSearchActive st;
     activeFilters := activeFilters st;
     sortBy := sortBy st;
     sortOrder := sortOrder st;
     totalCount := totalCount st;
     currentPage := v;
     allDataLoaded := allDataLoaded st;
     pageSize := pageSize st |}.

Definition setAllDataLoaded (v : bool) (st : State) : State :=
  {| data := data st;
     loading := loading st;
     isFirstLoad := isFirstLoad st;
     paginationLoading := paginationLoading st;
     searchTerm := searchTerm st;
     debouncedSearchTerm := debouncedSearchTerm st;
     isSearchActive := isSearchActive st;
     activeFilters := activeFilters st;
     sortBy := sortBy st;
     sortOrder := sortOrder st;
     totalCount := totalCount st;
     currentPage := currentPage st;
     allDataLoaded := v;
     pageSize := pageSize st |}.

Definition setPageSize (v : Z) (st : State) : State :=
  {| data := data st;
     loading := loading st;
     isFirstLoad := isFirstLoad st;
     paginationLoading := paginationLoading st;
     searchTerm := searchTerm st;
     debouncedSearchTerm := debouncedSearchTerm st;
     isSearchActive := isSearchActive st;
     activeFilters := activeFilters st;
     sortBy := sortBy st;
     sortOrder := sortOrder st;
     totalCount := totalCount st;
     currentPage := currentPage st;
     allDataLoaded := allDataLoaded st;
     pageSize := v |}.

(** [a || b] on numbers: [0] and [undefined] are falsy. *)
Definition num_or (a : option Z) (b : Z) : Z :=
  match a with
  | Some n => if (n =? 0)%Z then b else n
  | None => b
  end.

(** [a || b] on strings: [''] and [undefined] are falsy. *)
Definition str_or (a : option string) (b : string) : string :=
  match a with
  | Some s => if truthy s then s else b
  | None => b
  end.

(** The initial values of the state cells. *)
Definition initial (env : Env) : State :=
  let term := str_or (initialSearchTerm (options env)) "" in
  {| data := [];
     loading := true;
     isFirstLoad := true;
     paginationLoading := false;
     searchTerm := term;
     debouncedSearchTerm := term;
     isSearchActive := false;
     activeFilters := match initialFilters (options env) with Some fs => fs | None => [] end;
     sortBy := str_or (defaultSort (config env)) "created_at";
     sortOrder := desc;
     totalCount := 0;
     currentPage := 0;
     allDataLoaded := false;
     pageSize := num_or (opt_pageSize (options env)) (num_or (cfg_pageSize (config env)) 50) |}.

(** *** The main query *)

Definition build_query (env : Env) (firm : string) (st : State)
    (eventIdsFilter : option (list string)) : query :=
  let cfg := config env in
  let q := scope_clauses cfg (profile env) firm in
  let q := match eventIdsFilter with
           | Some ids => (q ++ [Q_in "id" ids])%list
           | None => q
           end in
  let q := if tableName cfg =? "quotations"
           then (q ++ quotation_status (today env) (activeFilters st))%list
           else q in
  let q := (q ++ search_clauses cfg (isSearchActive st) (debouncedSearchTerm st))%list in
  let others := otherFilters (activeFilters st) in
  let q := (q ++ grouped_clauses others)%list in
  let q := fold_left (apply_builder cfg) (finalRemainingFilters cfg others) q in
  let q := (q ++ [Q_order (sortBy st) (match sortOrder st with asc => true | desc => false end)])%list in
  let from := (currentPage st * pageSize st)%Z in
  let to := (from + pageSize st - 1)%Z in
  (q ++ [Q_range from to])%list.

(** *** Notions used to state the properties *)

(** The values of the group of [field], empty when there is none. *)
Definition gvalues (field : string) (gs : Groups) : list string :=
  match find (fun e => fst e =? field) gs with
  | Some e => values (snd e)
  | None => []
  end.

(** The mapped values of the keys that target [field]. *)
Definition values_for (field : string) (keys : list string) : list string :=
  flat_map (fun k => match fieldMappings k with
                     | Some (f, v) => if f =? field then [v] else []
                     | None => []
                     end) keys.

(** The grouped filter in the words of the specification: within one
    column the mapped values of the keys are alternatives (the row's
    value is one of them), and this holds for every column that some
    key targets. *)
Definition column_membership (r : Row) (keys : list string) : bool :=
  forallb (fun k => match fieldMappings k with
                    | Some (f, _) => existsb (has_value r f) (values_for f keys)
                    | None => true
                    end) keys.

(** The keys that the generic pass leaves out: role keys and
    staff-status keys. *)
Definition reserved (k : string) : bool :=
  includes (roleKeys ++ staffStatusKeys) k.

(** The four status keys that the quotations block and the mutual
    exclusions of quotations read. *)
Definition quotation_keys : list string :=
  ["converted"; "pending"; "expired"; "valid"].

(** A key that nothing in the translator recognises for this
    configuration: not reserved, without static mapping (neither an
    entry of the table nor a name the object literal inherits), without
    custom builder, and not a status key of quotations. *)
Definition unknown_key (cfg : FilterConfig) (k : string) : Prop :=
  reserved k = false
  /\ fieldMappings k = None
  /\ builder_of cfg k = None
  /\ (tableName cfg =? "quotations") && includes quotation_keys k = false.

(** The fields that a look-up in [fieldMappings] can answer with. *)
Definition mapped_fields : list string :=
  ["role"; "entry_type"; "category"; "status"; "priority"; "task_type";
   "event_type"; "payment_method"; "undefined"].

(** The builder calls that [fetchData] makes itself before it hands the
    query to the custom builders, in order. *)
Definition own_clauses (env : Env) (firm : string) (st : State)
    (eventIdsFilter : option (list string)) : list clause :=
  (scope_clauses (config env) (profile env) firm
   ++ match eventIdsFilter with Some ids => [Q_in "id" ids] | None => [] end
   ++ (if tableName (config env) =? "quotations"
       then quotation_status (today env) (activeFilters st) else [])
   ++ search_clauses (config env) (isSearchActive st) (debouncedSearchTerm st)
   ++ grouped_clauses (otherFilters (activeFilters st)))%list.

(** Builder calls that filter rows, as opposed to ordering and windowing. *)
Definition is_filter (cl : clause) : bool :=
  match cl with
  | Q_order _ _ | Q_range _ _ => false
  | _ => true
  end.



(** A builder call that can restrict by workspace: a test of [firm_id],
    or a filter on an embedded foreign table. *)
Definition workspace_clause (cl : clause) : bool :=
  tests_column "firm_id" cl || is_foreign cl.

(** Every query builder of the configuration leaves the clauses selected
    by [keep] as they are. *)
Definition builders_keep (keep : clause -> bool) (cfg : FilterConfig) : Prop :=
  forall k qb q, builder_of cfg k = Some qb -> filter keep (qb q) = filter keep q.

(** The calls the builder of a key adds to an empty query. *)
Definition added (cfg : FilterConfig) (filterKey : string) : list clause :=
  match builder_of cfg filterKey with
  | Some qb => qb []
  | None => []
  end.

(** Every query builder of the configuration adds filtering calls at the
    end of the query, the same ones whatever the query. *)
Definition builders_append (cfg : FilterConfig) : Prop :=
  forall k qb q, builder_of cfg k = Some qb ->
    qb q = (q ++ qb [])%list /\ forallb is_filter (qb []) = true.

End Hook.

(* ================================================================== *)
(** ** The pagination / load-state controller *)
(* ================================================================== *)

Module Controller.
Import SearchTerm Query Hook.

(** The awaited [{ data, error, count }]; a failure of the pre-filter
    query is thrown to the same handler as a failure of the main one. *)
Inductive Reply : Type :=
| Reply_ok (result : option (list Row)) (count : option Z)
| Reply_error (message : string).

(** A call of [fetchData] that is past its synchronous prefix: its two
    arguments and the render whose values it closed over. *)
Record Fetch : Type := {
  f_append : bool;
  f_isPagination : bool;
  f_render : State
}.

(** [currentFirmId] when truthy. *)
Definition firm_of (env : Env) : option string :=
  match currentFirmId env with
  | Some f => if truthy f then Some f else None
  | None => None
  end.

(** [fetchData] up to its first [await].  [render] is the render the
    callback was created in, [st] the state the setters act on. *)
Definition fetch_begin (env : Env) (render : State) (append isPagination : bool)
    (st : State) : State * list Fetch :=
  match firm_of env with
  | None => (setPaginationLoading false (setLoading false st), [])
  | Some _ =>
      let st :=
        if isPagination then setPaginationLoading true st
        else if negb append then
          if isFirstLoad render && (List.length (data render) =? 0)%nat
          then setLoading true st else st
        else st in
      (st, [{| f_append := append; f_isPagination := isPagination; f_render := render |}])
  end.

(** The row mapping applied to events. *)
Definition process_event {B : Backend} (event : Row) : Row :=
  fun col =>
    if col =? "_dataLoaded" then Some "true"
    else if col =? "quotation_details" then
      match source_quotation_details event with
      | Some d => if truthy d then Some d else event "quotation_details"
      | None => event "quotation_details"
      end
    else event col.

Definition processedResult {B : Backend} (env : Env) (result : option (list Row)) : list Row :=
  let rows := match result with Some rows => rows | None => [] end in
  if (tableName (config env) =? "events") && (0 <? List.length rows)%nat
  then map process_event rows
  else rows.

(** [fetchData] from the resolution of the main query to its end: the
    [try] tail, the [catch] and the [finally]. *)
Definition fetch_end {B : Backend} (env : Env) (f : Fetch) (reply : Reply)
    (st : State) : State :=
  let st :=
    match reply with
    | Reply_ok result count =>
        let rows := processedResult env result in
        let st := if f_append f then setData (data st ++ rows)%list st
                  else setData rows st in
        let st := setTotalCount (num_or count 0) st in
        let st := setAllDataLoaded
                    (Z.of_nat (List.length rows) <? pageSize (f_render f))%Z st in
        if isFirstLoad (f_render f) then setIsFirstLoad false st else st
    | Reply_error _ =>
        if negb (f_append f) then setData [] st else st
    end in
  if f_isPagination f then setPaginationLoading false st else setLoading false st.

(** The query a fetch sends, given the outcome of its pre-filter. *)
Definition fetch_query (env : Env) (firm : string) (f : Fetch)
    (eventIdsFilter : option (list string)) : query :=
  build_query env firm (f_render f) eventIdsFilter.

(** *** Handlers *)

Definition loadMore (st : State) : State :=
  if negb (allDataLoaded st) && negb (loading st)
  then setCurrentPage (currentPage st + 1)%Z st
  else st.

Definition resetPagination (st : State) : State :=
  setAllDataLoaded false (setCurrentPage 0%Z st).

(** [Math.ceil(a / b)] for integers with [b <> 0].  (For [b = 0]
    JavaScript yields an infinity or NaN, which is outside this model.) *)
Definition ceil_div (a b : Z) : Z := (- ((- a) / b))%Z.

Definition maxPage (st : State) : Z :=
  (ceil_div (totalCount st) (pageSize st) - 1)%Z.

Definition validPage (st : State) (page : Z) : Z :=
  Z.max 0 (Z.min page (maxPage st)).

Definition goToPage (page : Z) (st : State) : State :=
  if negb (validPage st page =? currentPage st)%Z && (0 <? totalCount st)%Z
  then setAllDataLoaded false (setCurrentPage (validPage st page) st)
  else st.

Definition setPageSizeWithReset (newPageSize : Z) (st : State) : State :=
  setPageSize newPageSize (setAllDataLoaded false (setCurrentPage 0%Z st)).

Definition handleSearchApply (st : State) : State :=
  if truthy (trim (searchTerm st)) then setIsSearchActive true st else st.

Definition handleSearchClear (st : State) : State :=
  setIsSearchActive false (setSearchTerm "" st).

Definition toggleSortOrder (st : State) : State :=
  setSortOrder (match sortOrder st with asc => desc | desc => asc end) st.

Fixpoint strings_eqb (xs ys : list string) : bool :=
  match xs, ys with
  | [], [] => true
  | x :: xs', y :: ys' => (x =? y) && strings_eqb xs' ys'
  | _, _ => false
  end.

(** [newFilters] is the array given, or the result of the updater
    function given.  The setter is skipped when the serialised lists
    agree; on arrays of strings [JSON.stringify] agrees exactly on equal
    lists. *)
Definition setActiveFiltersOptimized (newFilters : list string) (st : State) : State :=
  if negb (strings_eqb newFilters (activeFilters st))
  then setActiveFilters newFilters st
  else st.

Definition setSortByOptimized (sort : string) (st : State) : State :=
  setSortBy sort st.

(** The timer of [useDebounce] firing: the latest input is emitted. *)
Definition debounce_fire (st : State) : State :=
  setDebouncedValue (searchTerm st) st.

(** The callback of every realtime subscription. *)
Definition realtime_change (st : State) : State := resetPagination st.

(** *** Effects *)

Definition sortOrder_eqb (a b : SortOrder) : bool :=
  match a, b with
  | asc, asc | desc, desc => true
  | _, _ => false
  end.

(** Dependencies of the effect that resets pagination:
    [[isSearchActive, debouncedSearchTerm, activeFilters, sortBy,
    sortOrder, resetPagination]] (the last is a stable callback). *)
Definition same_filter_deps (a b : State) : bool :=
  Bool.eqb (isSearchActive a) (isSearchActive b)
  && (debouncedSearchTerm a =? debouncedSearchTerm b)
  && strings_eqb (activeFilters a) (activeFilters b)
  && (sortBy a =? sortBy b)
  && sortOrder_eqb (sortOrder a) (sortOrder b).

(** Dependencies of the fetch effect: [[currentPage, fetchData]], where
    [fetchData] is re-created when one of the state cells it lists
    changes ([config], [currentFirmId], [profile] and [toast] are fixed
    while the environment is). *)
Definition same_fetch_deps (a b : State) : bool :=
  same_filter_deps a b
  && (currentPage a =? currentPage b)%Z
  && (pageSize a =? pageSize b)%Z.

(** The effects of one commit, in declaration order: [prev] is the
    previous render, [cur] the one just rendered.  State written by an
    effect is seen by the next render, not by this one. *)
Definition run_effects (env : Env) (prev cur : State) : State * list Fetch :=
  let st := if same_filter_deps prev cur then cur else resetPagination cur in
  if same_fetch_deps prev cur then (st, [])
  else
    let isPagination := (0 <? currentPage cur)%Z && (0 <? List.length (data cur))%nat in
    fetch_begin env cur false isPagination st.

(** Renders and effect runs until nothing is left to run. *)
Fixpoint commit (rounds : nat) (env : Env) (prev cur : State) : State * list Fetch :=
  match rounds with
  | O => (cur, [])
  | S n =>
      let '(st, fetches) := run_effects env prev cur in
      let '(st', fetches') := commit n env cur st in
      (st', (fetches ++ fetches')%list)
  end.

(** A state update from settled state [st], followed to quiescence:
    the new state and the fetches it started. *)
Definition dispatch (env : Env) (handler : State -> State) (st : State)
    : State * list Fetch :=
  commit 3 env st (handler st).

(** Mounting: the first render runs every effect. *)
Definition mount (env : Env) : State * list Fetch :=
  let st0 := initial env in
  let '(st, fetches) := fetch_begin env st0 false false (resetPagination st0) in
  let '(st', fetches') := commit 3 env st0 st in
  (st', (fetches ++ fetches')%list).

(** [refetch], called with the [fetchData] of render [render]. *)
Definition refetch (env : Env) (render : State) (st : State) : State * list Fetch :=
  fetch_begin env render false false (resetPagination st).

(** The same call of [fetchData] in a render with other active filters. *)
Definition with_filters (filters : list string) (f : Fetch) : Fetch :=
  {| f_append := f_append f;
     f_isPagination := f_isPagination f;
     f_render := setActiveFilters filters (f_render f) |}.

(** *** Fetches against a database *)

Definition Database : Type := string -> list Row.

Definition respond {B : Backend} (db : Database) (env : Env) (firm : string)
    (f : Fetch) : Reply :=
  let filters := activeFilters (f_render f) in
  let eventIdsFilter :=
    if needs_prefilter (config env) filters
    then Some (eventIdsFilter_of
                 (fst (run_query (db "event_staff_assignments")
                                 (prefilter_query firm filters))))
    else None in
  let '(rows, count) :=
    run_query (db (tableName (config env))) (fetch_query env firm f eventIdsFilter) in
  Reply_ok (Some rows) (Some count).

(** A mounted hook with the fetches in flight, oldest first. *)
Record Mounted : Type := {
  cells : State;
  inflight : list Fetch
}.

Definition start (env : Env) : Mounted :=
  let '(st, fetches) := mount env in
  {| cells := st; inflight := fetches |}.

Definition act (env : Env) (handler : State -> State) (m : Mounted) : Mounted :=
  let '(st, fetches) := dispatch env handler (cells m) in
  {| cells := st; inflight := (inflight m ++ fetches)%list |}.

(** The oldest fetch in flight resolves against the database. *)
Definition resolve {B : Backend} (db : Database) (env : Env) (m : Mounted) : Mounted :=
  match inflight m, firm_of env with
  | f :: rest, Some firm =>
      let '(st, fetches) := dispatch env (fetch_end env f (respond db env firm f)) (cells m) in
      {| cells := st; inflight := (rest ++ fetches)%list |}
  | _, _ => m
  end.

(** The call [fetchData(false, isPagination)] that the fetch effect makes
    in render [st]. *)
Definition effect_fetch (st : State) : Fetch :=
  {| f_append := false;
     f_isPagination := (0 <? currentPage st)%Z && (0 <? List.length (data st))%nat;
     f_render := st |}.

(** The rows [range(from, to)] selects for page [page] under
    [pageSize], with [from] and [to] as [fetchData] computes them. *)
Definition page_rows (pageSize page : Z) (rows : list Row) : list Row :=
  window (page * pageSize) (page * pageSize + pageSize - 1) rows.

(** Pagination as [resetPagination] leaves it. *)
Definition at_page_zero (st : State) : Prop :=
  currentPage st = 0%Z /\ allDataLoaded st = false.

(** The state updates the reset effect listens to: a change of the
    sort key, of the sort direction, of the debounced search term, of
    the search-active flag, or of the active filters. *)
Inductive FilterChange (st : State) : (State -> State) -> Prop :=
| change_sortBy (sort : string) :
    sort <> sortBy st -> FilterChange st (setSortByOptimized sort)
| change_sortOrder :
    FilterChange st toggleSortOrder
| change_debounced :
    searchTerm st <> debouncedSearchTerm st -> FilterChange st debounce_fire
| change_search_on :
    isSearchActive st = false -> truthy (trim (searchTerm st)) = true ->
    FilterChange st handleSearchApply
| change_search_off :
    isSearchActive st = true -> FilterChange st handleSearchClear
| change_filters (newFilters : list string) :
    newFilters <> activeFilters st ->
    FilterChange st (setActiveFiltersOptimized newFilters).

End Controller.

(* ================================================================== *)
(** ** The assignments hook ([useAssignments]) *)
(* ================================================================== *)

Module Assignments.
Import SearchTerm Query Hook.

(** The two [useState] cells of the hook. *)
Record State : Type := {
  assignments : list Row;
  loading : bool
}.

Definition initial : State := {| assignments := []; loading := true |}.

(** The awaited [{ data, error }]. *)
Inductive Reply : Type :=
| Reply_ok (data : option (list Row))
| Reply_error (message : string).

(** The query of [fetchAssignments]; the embedded event and client are
    part of the select list and filter nothing. *)
Definition assignments_query (profileId currentFirmId : string) : query :=
  [Q_eq "staff_id" profileId;
   Q_eq "firm_id" currentFirmId;
   Q_order "day_date" true].

(** [fetchAssignments] up to its [await]: without a profile id or a
    workspace it lowers [loading] and returns. *)
Definition fetchAssignments_begin (profile : option Profile)
    (currentFirmId : option string) (st : State) : State * option query :=
  match profile_id_of profile, currentFirmId with
  | Some pid, Some firm =>
      if truthy firm
      then ({| assignments := assignments st; loading := true |},
            Some (assignments_query pid firm))
      else ({| assignments := assignments st; loading := false |}, None)
  | _, _ => ({| assignments := assignments st; loading := false |}, None)
  end.

(** [fetchAssignments] from the reply to its end. *)
Definition fetchAssignments_end (reply : Reply) (st : State) : State :=
  match reply with
  | Reply_ok data =>
      {| assignments := match data with Some rows => rows | None => [] end;
         loading := false |}
  | Reply_error _ =>
      {| assignments := assignments st; loading := false |}
  end.

(** A whole call against a table of assignment rows. *)
Definition fetchAssignments {B : Backend} (table : list Row)
    (profile : option Profile) (currentFirmId : option string) (st : State) : State :=
  match fetchAssignments_begin profile currentFirmId st with
  | (st', Some q) => fetchAssignments_end (Reply_ok (Some (fst (run_query table q)))) st'
  | (st', None) => st'
  end.

End Assignments.

(* ================================================================== *)
(** ** Concrete configurations *)
(* ================================================================== *)

Module Scenario.
Import SearchTerm Query Hook Controller.

(** A backend that keeps table order, matches patterns by equality of
    the inner text, and compares values as strings. *)
Definition plain_backend : Backend :=
  {| ilike := fun x p => (("%" ++ x ++ "%") =? p);
     value_lt := String.ltb;
     foreign_or := fun _ _ _ => true;
     sort_rows := fun _ _ rows => rows;
     source_quotation_details := fun _ => None |}.

Definition firm1 : string := "firm-1".

Definition no_options (size : option Z) : UseBackendFiltersOptions :=
  {| opt_pageSize := size;
     enableRealtime := true;
     initialFilters := None;
     initialSearchTerm := None |}.

(** Two chips: one with a custom builder, one without. *)
Definition has_email : FilterOption :=
  {| key := "has_email";
     queryBuilder := Some (fun q => (q ++ [Q_not_is_null "email"])%list) |}.

Definition label_only : FilterOption :=
  {| key := "label_only"; queryBuilder := None |}.

Definition list_config (table : string) : FilterConfig :=
  {| tableName := table;
     searchFields := ["name"];
     filterOptions := [has_email; label_only];
     defaultSort := None;
     cfg_pageSize := None |}.

Definition admin : Profile := {| profile_id := "user-1"; profile_role := "Admin" |}.
Definition staff : Profile := {| profile_id := "user-2"; profile_role := "Staff" |}.

Definition env_of (table : string) (who : Profile) (size : option Z) : Env :=
  {| config := list_config table;
     options := no_options size;
     currentFirmId := Some firm1;
     profile := Some who;
     today := "2025-06-15" |}.

(** Row number [i] of the workspace. *)
Definition client_row (i : nat) : Row :=
  fun col =>
    if col =? "id" then Some (String (ascii_of_nat i) EmptyString)
    else if col =? "firm_id" then Some firm1
    else None.

(** A [clients] table of 120 rows, all in the workspace. *)
Definition clients_120 : Database :=
  fun table => if table =? "clients" then map client_row (seq 0 120) else [].

Definition env_50 : Env := env_of "clients" admin (Some 50%Z).

(** Mount, first page, then three times [loadMore] each followed by the
    resolution of what it started. *)
Definition m0 : Mounted := start env_50.
Definition m1 : Mounted := resolve (B := plain_backend) clients_120 env_50 m0.
Definition call1 : Mounted := act env_50 loadMore m1.
Definition m2 : Mounted := resolve (B := plain_backend) clients_120 env_50 call1.
Definition call2 : Mounted := act env_50 loadMore m2.
Definition m3 : Mounted := resolve (B := plain_backend) clients_120 env_50 call2.
Definition call3 : Mounted := act env_50 loadMore m3.
Definition m4 : Mounted := resolve (B := plain_backend) clients_120 env_50 call3.

(** The page and the count that the oldest fetch in flight is answered
    with. *)
Definition fetched (m : Mounted) : option (nat * Z) :=
  match inflight m, firm_of env_50 with
  | f :: _, Some firm =>
      match respond (B := plain_backend) clients_120 env_50 firm f with
      | Reply_ok (Some rows) (Some count) => Some (List.length rows, count)
      | _ => None
      end
  | _, _ => None
  end.

(** Quotations with the chips [converted] and [expired] both active. *)
Definition env_quotations : Env := env_of "quotations" admin None.

(** Tasks as seen by a member of staff. *)
Definition env_tasks : Env := env_of "tasks" staff None.

(** Freelancers filtered by a role chip and a mapped chip. *)
Definition env_freelancers : Env := env_of "freelancers" admin None.
Definition st_photographer : State :=
  setActiveFilters ["photographer"] (initial env_freelancers).
Definition editor_row : Row :=
  fun col =>
    if col =? "role" then Some "Editor"
    else if col =? "firm_id" then Some firm1
    else None.

(** A fetch of events filtered by two event types and a custom chip. *)
Definition env_events : Env := env_of "events" admin None.
Definition fetch_events : Fetch :=
  {| f_append := false;
     f_isPagination := false;
     f_render := setActiveFilters ["wedding"; "has_email"; "maternity"; "drone"]
                   (initial env_events) |}.

Definition permuted_keys : list string :=
  ["has_email"; "wedding"; "maternity"; "drone"].

Definition event_row (i type email : string) : Row :=
  fun col =>
    if col =? "id" then Some i
    else if col =? "firm_id" then Some firm1
    else if col =? "event_type" then Some type
    else if col =? "email" then (if truthy email then Some email else None)
    else None.

Definition assignment_row (event role : string) : Row :=
  fun col =>
    if col =? "event_id" then Some event
    else if col =? "firm_id" then Some firm1
    else if col =? "role" then Some role
    else None.

(** A small studio: four events and their staff. *)
Definition studio : Database :=
  fun table =>
    if table =? "events" then
      [event_row "e1" "Wedding" "a@x.org";
       event_row "e2" "Maternity Photography" "b@x.org";
       event_row "e3" "Others" "c@x.org";
       event_row "e4" "Wedding" ""]
    else if table =? "event_staff_assignments" then
      [assignment_row "e1" "Drone"; assignment_row "e2" "Drone";
       assignment_row "e1" "Photographer"; assignment_row "e4" "Drone"]
    else [].

(** The hook outside any workspace. *)
Definition env_no_workspace : Env :=
  {| config := list_config "clients";
     options := no_options None;
     currentFirmId := None;
     profile := Some admin;
     today := "2025-06-15" |}.

(** A fetch of events by role when nobody holds the role. *)
Definition fetch_editors : Fetch :=
  {| f_append := false;
     f_isPagination := false;
     f_render := setActiveFilters ["editor"] (initial env_events) |}.

(** Quotations with the chips [expired] and [valid] both active. *)
Definition expired_valid : list string := ["expired"; "valid"].

(** A render whose debounced search term is blank. *)
Definition st_blank_search : State :=
  setIsSearchActive true (setDebouncedValue "   " (initial env_50)).

(** A result of exactly two full pages of 50. *)
Definition hundred_rows : list Row := map client_row (seq 0 100).
Definition st_second_page : State := setCurrentPage 1%Z (initial env_50).

(** Assignment rows of two members of staff in two workspaces. *)
Definition staff_row (i staff_id firm : string) : Row :=
  fun col =>
    if col =? "id" then Some i
    else if col =? "staff_id" then Some staff_id
    else if col =? "firm_id" then Some firm
    else None.

Definition staff_rows : list Row :=
  [staff_row "a1" "user-2" firm1; staff_row "a2" "user-2" "firm-2";
   staff_row "a3" "user-1" firm1].





(** A task of the member of staff, in another workspace. *)
Definition foreign_task : Row :=
  fun col =>
    if col =? "assigned_to" then Some "user-2"
    else if col =? "firm_id" then Some "firm-2"
    else None.


End Scenario.

(* ================================================================== *)
(** * Properties *)
(* ================================================================== *)

Import SearchTerm Query Hook Controller.

(** ** Sanitisation of the search term *)

Section Sanitise.

Lemma occurs_app (c : ascii) (a b : string) :
  occurs c (a ++ b) = occurs c a || occurs c b.
Proof.
  induction a as [|d a IH]; simpl; [reflexivity|].
  now rewrite IH, orb_assoc.
Qed.

Lemma isSpecial_cases (c : ascii) :
  isSpecial c = true -> c = ","%char \/ c = "("%char \/ c = ")"%char.
Proof.
  unfold isSpecial; intros H.
  apply orb_true_iff in H as [H|H]; [apply orb_true_iff in H as [H|H]|];
    apply Ascii.eqb_eq in H; auto.
Qed.

Lemma replaceSpecial_clean (c : ascii) (s : string) :
  isSpecial c = true -> occurs c (replaceSpecial s) = false.
Proof.
  intros Hc; induction s as [|d s IH]; simpl; [reflexivity|].
  rewrite IH, orb_false_r.
  destruct (isSpecial d) eqn:Hd.
  - destruct (isSpecial_cases c Hc) as [->|[->| ->]]; reflexivity.
  - destruct (Ascii.eqb c d) eqn:E; [|reflexivity].
    apply Ascii.eqb_eq in E; congruence.
Qed.

Lemma replaceSpecial_length (s : string) :
  String.length (replaceSpecial s) = String.length s.
Proof. induction s; simpl; congruence. Qed.

Lemma split_at_none (sep : ascii) (s : string) :
  occurs sep s = false -> split_at sep s = [s].
Proof.
  induction s as [|d s IH]; simpl; intros H; [reflexivity|].
  apply orb_false_elim in H as [H1 H2].
  now rewrite H1, (IH H2).
Qed.

Lemma split_at_sep (sep : ascii) (s t : string) :
  occurs sep s = false ->
  split_at sep (s ++ String sep t) = s :: split_at sep t.
Proof.
  induction s as [|d s IH]; simpl; intros H.
  - now rewrite Ascii.eqb_refl.
  - apply orb_false_elim in H as [H1 H2].
    now rewrite H1, (IH H2).
Qed.

Lemma split_join (xs : list string) :
  xs <> [] -> (forall x, In x xs -> occurs "," x = false) ->
  split_at "," (join "," xs) = xs.
Proof.
  induction xs as [|x xs IH]; intros Hne Hall; [congruence|].
  destruct xs as [|y xs].
  - simpl. apply split_at_none, Hall; now left.
  - change (join "," (x :: y :: xs)) with (x ++ String "," (join "," (y :: xs))).
    rewrite split_at_sep by (apply Hall; now left).
    f_equal. apply IH; [discriminate|].
    intros z Hz; apply Hall; now right.
Qed.

Lemma search_filters_string (fields : list string) (term : string) :
  filters_string
    (map (fun field => c_ilike field ("%" ++ safeTerm term ++ "%")) fields)
  = search_or_string fields term.
Proof.
  unfold filters_string, search_or_string.
  now rewrite map_map.
Qed.

(** C6 (as amended).  For every search term the sanitised term holds no
    comma and no parenthesis: each one is replaced by one space after
    the trimming, so the length of the trimmed term is kept and
    ["John, (Doe)"] becomes ["John   Doe "] (three spaces inside, one at
    the end).  The or-filter composed from it is well formed: read back
    at its commas it has exactly one alternative per search field. *)
Theorem search_term_sanitised (term : string) (fields : list string) :
  fields <> [] ->
  (forall f, In f fields -> occurs "," f = false) ->
  (forall c, isSpecial c = true -> occurs c (safeTerm term) = false)
  /\ String.length (safeTerm term) = String.length (trim term)
  /\ safeTerm "John, (Doe)" = "John   Doe "
  /\ split_at "," (search_or_string fields term)
     = map (ilike_condition (safeTerm term)) fields
  /\ filters_string
       (map (fun field => c_ilike field ("%" ++ safeTerm term ++ "%")) fields)
     = search_or_string fields term.
Proof.
  intros Hne Hfields.
  assert (Hclean : forall c, isSpecial c = true -> occurs c (safeTerm term) = false)
    by (intros c Hc; apply replaceSpecial_clean, Hc).
  repeat split.
  - exact Hclean.
  - apply replaceSpecial_length.
  - unfold search_or_string. apply split_join.
    + destruct fields; [congruence|discriminate].
    + intros x Hx. apply in_map_iff in Hx as (f & <- & Hf).
      unfold ilike_condition.
      rewrite !occurs_app, (Hfields f Hf), (Hclean ","%char eq_refl).
      reflexivity.
  - apply search_filters_string.
Qed.

End Sanitise.

(** C6, the claim's example: the sanitised form of ["John, (Doe)"] is
    not ["John  Doe"]. *)
Lemma john_doe_two_spaces_counterexample :
  safeTerm "John, (Doe)" <> "John  Doe".
Proof. apply String.eqb_neq. reflexivity. Qed.

Lemma search_term_sanitised_witness :
  (["name"; "email"] <> [] /\
   (forall f, In f ["name"; "email"] -> occurs "," f = false)) /\
  split_at "," (search_or_string ["name"; "email"] "a,b (c)")
  = map (ilike_condition (safeTerm "a,b (c)")) ["name"; "email"].
Proof.
  assert (H1 : ["name"; "email"] <> []) by discriminate.
  assert (H2 : forall f, In f ["name"; "email"] -> occurs "," f = false).
  { intros f [<-|[<-|[]]]; reflexivity. }
  split; [split; assumption|].
  exact (proj1 (proj2 (proj2 (proj2
           (search_term_sanitised "a,b (c)" ["name"; "email"] H1 H2))))).
Defined.

(** ** The controller: effects and quiescence *)

Lemma strings_eqb_eq (xs ys : list string) :
  strings_eqb xs ys = true <-> xs = ys.
Proof.
  revert ys; induction xs as [|x xs IH]; intros [|y ys]; simpl;
    try (split; [discriminate|congruence]); [tauto|].
  rewrite andb_true_iff, String.eqb_eq, IH.
  split; [intros [-> ->]; reflexivity | intros [= -> ->]; auto].
Qed.

Lemma strings_eqb_refl (xs : list string) : strings_eqb xs xs = true.
Proof. now apply strings_eqb_eq. Qed.

Lemma sortOrder_eqb_refl (o : SortOrder) : sortOrder_eqb o o = true.
Proof. now destruct o. Qed.

Ltac deps_refl :=
  unfold same_fetch_deps, same_filter_deps; simpl;
  rewrite ?eqb_reflx, ?String.eqb_refl, ?strings_eqb_refl,
    ?sortOrder_eqb_refl, ?Z.eqb_refl; reflexivity.

Section Effects.

Variable env : Env.

Lemma same_filter_deps_refl (st : State) : same_filter_deps st st = true.
Proof.
  unfold same_filter_deps.
  now rewrite eqb_reflx, !String.eqb_refl, strings_eqb_refl, sortOrder_eqb_refl.
Qed.

Lemma same_fetch_deps_refl (st : State) : same_fetch_deps st st = true.
Proof.
  unfold same_fetch_deps.
  now rewrite same_filter_deps_refl, !Z.eqb_refl.
Qed.

Lemma run_effects_same (st : State) : run_effects env st st = (st, []).
Proof.
  unfold run_effects.
  now rewrite same_filter_deps_refl, same_fetch_deps_refl.
Qed.

Lemma commit_same (n : nat) (st : State) : commit n env st st = (st, []).
Proof.
  induction n as [|n IH]; simpl; [reflexivity|].
  now rewrite run_effects_same, IH.
Qed.

(** An update that leaves the dependencies of the fetch effect alone
    runs no effect at all. *)
Lemma dispatch_quiet (h : State -> State) (st : State) :
  same_fetch_deps st (h st) = true -> dispatch env h st = (h st, []).
Proof.
  intros H. unfold dispatch; simpl.
  unfold run_effects at 1. rewrite H.
  unfold same_fetch_deps in H.
  apply andb_true_iff in H as [H _]; apply andb_true_iff in H as [H _].
  rewrite H.
  change (commit 2 env (h st) (h st)) with
    (let '(s, f) := run_effects env (h st) (h st) in
     let '(s', f') := commit 1 env (h st) s in (s', (f ++ f')%list)).
  rewrite run_effects_same.
  change (commit 1 env (h st) (h st)) with
    (let '(s, f) := run_effects env (h st) (h st) in
     let '(s', f') := commit 0 env (h st) s in (s', (f ++ f')%list)).
  now rewrite run_effects_same.
Qed.

Lemma dispatch_noop (h : State -> State) (st : State) :
  h st = st -> dispatch env h st = (st, []).
Proof.
  intros H. rewrite dispatch_quiet; rewrite H; [reflexivity|].
  apply same_fetch_deps_refl.
Qed.

Lemma act_noop (h : State -> State) (m : Mounted) :
  h (cells m) = cells m ->
  cells (act env h m) = cells m /\ inflight (act env h m) = inflight m.
Proof.
  intros H. unfold act. rewrite (dispatch_noop h (cells m) H); simpl.
  split; [reflexivity | apply app_nil_r].
Qed.

(** [fetch_begin] writes the two busy flags only. *)
Lemma fetch_begin_cells (render st : State) (append isPagination : bool) :
  let st' := fst (fetch_begin env render append isPagination st) in
  currentPage st' = currentPage st /\ allDataLoaded st' = allDataLoaded st
  /\ data st' = data st /\ totalCount st' = totalCount st
  /\ pageSize st' = pageSize st
  /\ same_filter_deps st st' = true.
Proof.
  unfold fetch_begin.
  destruct (firm_of env); simpl.
  - destruct isPagination; [|destruct append; simpl;
      [|destruct (isFirstLoad render && _)]]; simpl;
      repeat split; try reflexivity; deps_refl.
  - repeat split; try reflexivity; deps_refl.
Qed.

Lemma run_effects_reset (prev cur : State) :
  same_filter_deps prev cur = false ->
  at_page_zero (fst (run_effects env prev cur)).
Proof.
  intros H. unfold run_effects. rewrite H.
  unfold same_fetch_deps. rewrite H. simpl.
  destruct (fetch_begin_cells cur (resetPagination cur) false
              ((0 <? currentPage cur)%Z && (0 <? List.length (data cur))%nat))
    as (Hp & Ha & _).
  split; [rewrite Hp | rewrite Ha]; reflexivity.
Qed.

Lemma run_effects_keeps (prev cur : State) :
  at_page_zero cur -> at_page_zero (fst (run_effects env prev cur)).
Proof.
  intros [Hp Ha]. unfold run_effects.
  assert (Hz : at_page_zero (if same_filter_deps prev cur then cur
                             else resetPagination cur)).
  { destruct (same_filter_deps prev cur); split; auto. }
  destruct (same_fetch_deps prev cur); [exact Hz|].
  destruct Hz as [Hp' Ha'].
  match goal with |- at_page_zero (fst (fetch_begin env ?r ?a ?i ?s)) =>
    destruct (fetch_begin_cells r s a i) as (Hp2 & Ha2 & _) end.
  split; [rewrite Hp2 | rewrite Ha2]; assumption.
Qed.

Lemma commit_keeps (n : nat) (prev cur : State) :
  at_page_zero cur -> at_page_zero (fst (commit n env prev cur)).
Proof.
  revert prev cur; induction n as [|n IH]; intros prev cur H; simpl; [exact H|].
  pose proof (run_effects_keeps prev cur H) as H1.
  destruct (run_effects env prev cur) as [st fs]; simpl in H1.
  pose proof (IH cur st H1) as H2.
  destruct (commit n env cur st) as [st' fs']; exact H2.
Qed.

Lemma dispatch_reset (h : State -> State) (st : State) :
  same_filter_deps st (h st) = false ->
  at_page_zero (fst (dispatch env h st)).
Proof.
  intros H. unfold dispatch.
  change (commit 3 env st (h st)) with
    (let '(s, f) := run_effects env st (h st) in
     let '(s', f') := commit 2 env (h st) s in (s', (f ++ f')%list)).
  pose proof (run_effects_reset st (h st) H) as H1.
  destruct (run_effects env st (h st)) as [s f]; simpl in H1.
  pose proof (commit_keeps 2 (h st) s H1) as H2.
  destruct (commit 2 env (h st) s) as [s' f']; exact H2.
Qed.

Lemma FilterChange_deps (st : State) (h : State -> State) :
  FilterChange st h -> same_filter_deps st (h st) = false.
Proof.
  unfold same_filter_deps.
  intros [sort H| |H|H1 H2|H|fs H]; simpl.
  - apply String.eqb_neq in H. rewrite String.eqb_sym in H.
    rewrite H. now rewrite !andb_false_r.
  - unfold toggleSortOrder; simpl.
    destruct (sortOrder st); simpl; now rewrite !andb_false_r.
  - apply String.eqb_neq in H. rewrite String.eqb_sym in H.
    rewrite H. now rewrite !andb_false_r.
  - unfold handleSearchApply. rewrite H2; simpl. now rewrite H1.
  - now rewrite H.
  - unfold setActiveFiltersOptimized.
    destruct (strings_eqb fs (activeFilters st)) eqn:E.
    + apply strings_eqb_eq in E; contradiction.
    + simpl.
      destruct (strings_eqb (activeFilters st) fs) eqn:E'.
      * apply strings_eqb_eq in E'. symmetry in E'; contradiction.
      * now rewrite !andb_false_r.
Qed.

(** C7.  A change of the sort key, the sort direction, the debounced
    search term, the search-active flag or the active filters leaves
    [currentPage] at 0 and [allDataLoaded] false once its effects have
    run; this holds in every state of the hook, whatever its busy flags
    and whatever fetches are in flight. *)
Theorem filter_change_resets_pagination (h : State -> State) (m : Mounted) :
  FilterChange (cells m) h ->
  currentPage (cells (act env h m)) = 0%Z
  /\ allDataLoaded (cells (act env h m)) = false.
Proof.
  intros H. apply FilterChange_deps in H.
  pose proof (dispatch_reset h (cells m) H) as Hz.
  unfold act. destruct (dispatch env h (cells m)) as [st fs]; exact Hz.
Qed.

(** C10.  A realtime change notification received at [currentPage = 0]
    writes [allDataLoaded := false] and nothing else: the page keeps
    its value, so the fetch effect does not run, no fetch starts and
    the row buffer stays as it is. *)
Theorem realtime_at_page_zero_no_fetch (st : State) :
  currentPage st = 0%Z ->
  dispatch env realtime_change st = (setAllDataLoaded false st, [])
  /\ data (fst (dispatch env realtime_change st)) = data st
  /\ currentPage (fst (dispatch env realtime_change st)) = currentPage st.
Proof.
  intros H.
  assert (E : realtime_change st = setAllDataLoaded false st).
  { unfold realtime_change, resetPagination. destruct st; simpl in *; now subst. }
  assert (D : dispatch env realtime_change st = (setAllDataLoaded false st, [])).
  { rewrite dispatch_quiet; rewrite E; [reflexivity|]. deps_refl. }
  rewrite D; auto.
Qed.

Lemma run_effects_quiet (prev cur : State) :
  same_fetch_deps prev cur = true -> run_effects env prev cur = (cur, []).
Proof.
  intros H. unfold run_effects. rewrite H.
  unfold same_fetch_deps in H.
  apply andb_true_iff in H as [H _]; apply andb_true_iff in H as [H _].
  now rewrite H.
Qed.

Lemma commit_quiet (n : nat) (prev cur : State) :
  same_fetch_deps prev cur = true -> commit n env prev cur = (cur, []).
Proof.
  intros H. destruct n as [|n]; simpl; [reflexivity|].
  now rewrite (run_effects_quiet prev cur H), commit_same.
Qed.

Lemma fetch_begin_quiet (render st : State) (append isPagination : bool) :
  same_fetch_deps st (fst (fetch_begin env render append isPagination st)) = true.
Proof.
  destruct (fetch_begin_cells render st append isPagination)
    as (Hp & _ & _ & _ & Hs & Hf).
  unfold same_fetch_deps. now rewrite Hf, Hp, Hs, !Z.eqb_refl.
Qed.

Lemma fetch_begin_started (render st : State) (append isPagination : bool)
    (firm : string) :
  firm_of env = Some firm ->
  snd (fetch_begin env render append isPagination st)
  = [{| f_append := append; f_isPagination := isPagination; f_render := render |}].
Proof. intros H. unfold fetch_begin. now rewrite H. Qed.

(** A page turn under unchanged filters starts exactly one fetch, from
    the render of the new page. *)
Lemma dispatch_page_turn (h : State -> State) (st : State) (firm : string) :
  firm_of env = Some firm ->
  same_filter_deps st (h st) = true ->
  currentPage (h st) <> currentPage st ->
  exists st',
    dispatch env h st
    = (st', [{| f_append := false;
                f_isPagination := (0 <? currentPage (h st))%Z
                                  && (0 <? List.length (data (h st)))%nat;
                f_render := h st |}])
    /\ currentPage st' = currentPage (h st)
    /\ allDataLoaded st' = allDataLoaded (h st).
Proof.
  intros Hfirm Hsame Hpage.
  assert (Hfetch : same_fetch_deps st (h st) = false).
  { unfold same_fetch_deps. rewrite Hsame. simpl.
    assert (E : (currentPage st =? currentPage (h st))%Z = false)
      by (apply Z.eqb_neq; congruence).
    now rewrite E. }
  set (isPagination := (0 <? currentPage (h st))%Z
                       && (0 <? List.length (data (h st)))%nat).
  pose proof (fetch_begin_quiet (h st) (h st) false isPagination) as Hq.
  pose proof (fetch_begin_started (h st) (h st) false isPagination firm Hfirm) as Hs.
  destruct (fetch_begin_cells (h st) (h st) false isPagination)
    as (Hp & Ha & _).
  assert (Hrun : run_effects env st (h st)
                 = fetch_begin env (h st) false isPagination (h st)).
  { unfold run_effects. now rewrite Hsame, Hfetch. }
  destruct (fetch_begin env (h st) false isPagination (h st)) as [st1 fs] eqn:E.
  simpl in Hq, Hs, Hp, Ha. subst fs.
  exists st1. split; [|split; assumption].
  unfold dispatch.
  change (commit 3 env st (h st)) with
    (let '(s, f) := run_effects env st (h st) in
     let '(s', f') := commit 2 env (h st) s in (s', (f ++ f')%list)).
  now rewrite Hrun, (commit_quiet 2 (h st) st1 Hq).
Qed.

(** C8 (as amended).  With a workspace selected, [loadMore()] advances
    the page exactly when [allDataLoaded] and [loading] are both false.
    It then starts one fetch, for the next page and without append,
    which joins whatever fetches are in flight; otherwise it changes
    nothing and starts nothing.  [paginationLoading] is not consulted:
    the call acts alike whatever that flag is, so it also advances
    during a pagination load. *)
Theorem loadMore_guard (m : Mounted) (firm : string) :
  firm_of env = Some firm ->
  let st := cells m in
  (allDataLoaded st = false -> loading st = false ->
   loadMore st = setCurrentPage (currentPage st + 1)%Z st
   /\ exists st' f,
        dispatch env loadMore st = (st', [f])
        /\ currentPage st' = (currentPage st + 1)%Z
        /\ currentPage (f_render f) = (currentPage st + 1)%Z
        /\ f_append f = false
        /\ act env loadMore m
           = {| cells := st'; inflight := (inflight m ++ [f])%list |})
  /\ (allDataLoaded st = true \/ loading st = true ->
      loadMore st = st /\ dispatch env loadMore st = (st, [])
      /\ act env loadMore m = m)
  /\ (forall b, loadMore (setPaginationLoading b st)
                = setPaginationLoading b (loadMore st))
  /\ (paginationLoading st = true -> allDataLoaded st = false ->
      loading st = false ->
      currentPage (cells (act env loadMore m)) = (currentPage st + 1)%Z
      /\ List.length (inflight (act env loadMore m))
         = S (List.length (inflight m))).
Proof.
  intros Hfirm st.
  assert (Hgo : allDataLoaded st = false -> loading st = false ->
            loadMore st = setCurrentPage (currentPage st + 1)%Z st
            /\ exists st' f,
                 dispatch env loadMore st = (st', [f])
                 /\ currentPage st' = (currentPage st + 1)%Z
                 /\ currentPage (f_render f) = (currentPage st + 1)%Z
                 /\ f_append f = false
                 /\ act env loadMore m
                    = {| cells := st'; inflight := (inflight m ++ [f])%list |}).
  { intros Ha Hl.
    assert (E : loadMore st = setCurrentPage (currentPage st + 1)%Z st).
    { unfold loadMore. now rewrite Ha, Hl. }
    split; [exact E|].
    destruct (dispatch_page_turn loadMore st firm Hfirm) as (st' & Hd & Hp & _).
    + rewrite E. deps_refl.
    + rewrite E. simpl. lia.
    + eexists. eexists. split; [exact Hd|].
      split; [rewrite Hp, E; reflexivity|].
      split; [simpl; rewrite E; reflexivity|].
      split; [reflexivity|].
      unfold act. fold st. now rewrite Hd. }
  split; [exact Hgo|]. split; [|split].
  - intros H.
    assert (E : loadMore st = st).
    { unfold loadMore. destruct H as [H|H]; rewrite H; simpl;
        [reflexivity | now rewrite andb_false_r]. }
    split; [exact E|]. split; [now apply dispatch_noop|].
    destruct (act_noop loadMore m E) as [Hc Hi].
    destruct m as [c i]; destruct (act env loadMore {| cells := c; inflight := i |})
      as [c' i']; simpl in *. now subst.
  - intros b. unfold loadMore; simpl.
    now destruct (negb (allDataLoaded st) && negb (loading st)).
  - intros _ Ha Hl.
    destruct (Hgo Ha Hl) as (_ & st' & f & _ & Hp & _ & _ & Hact).
    rewrite Hact. simpl. split; [exact Hp|].
    rewrite length_app. simpl. lia.
Qed.

End Effects.

(** ** The controller: fetch completion and page arithmetic *)

Section Pagination.

Context {B : Backend}.
Variable env : Env.

Lemma processedResult_length (result : option (list Row)) :
  List.length (processedResult env result)
  = List.length (match result with Some rows => rows | None => [] end).
Proof.
  unfold processedResult.
  destruct (_ && _); [apply length_map | reflexivity].
Qed.

Lemma fetch_end_allDataLoaded (f : Fetch) (result : option (list Row))
    (count : option Z) (st : State) :
  allDataLoaded (fetch_end env f (Reply_ok result count) st)
  = (Z.of_nat (List.length (processedResult env result)) <? pageSize (f_render f))%Z.
Proof.
  unfold fetch_end.
  destruct (f_isPagination f), (isFirstLoad (f_render f)), (f_append f);
    reflexivity.
Qed.

Lemma fetch_end_quiet (f : Fetch) (reply : Reply) (st : State) :
  same_fetch_deps st (fetch_end env f reply st) = true.
Proof.
  unfold fetch_end.
  destruct reply as [result count|msg];
    destruct (f_isPagination f), (f_append f);
    try destruct (isFirstLoad (f_render f)); deps_refl.
Qed.

(** C2.  After a successful fetch [allDataLoaded] is true exactly when
    the number of rows the fetch returned is strictly below the page
    size it asked for, the width of the row range of its query; the
    completion runs no effect that could change the flag. *)
Theorem allDataLoaded_iff_short_page (f : Fetch) (result : option (list Row))
    (count : option Z) (st : State) (firm : string)
    (eventIdsFilter : option (list string)) :
  let rows := match result with Some rows => rows | None => [] end in
  let requested := pageSize (f_render f) in
  let st' := fetch_end env f (Reply_ok result count) st in
  (allDataLoaded st' = true <-> (Z.of_nat (List.length rows) < requested)%Z)
  /\ dispatch env (fetch_end env f (Reply_ok result count)) st = (st', [])
  /\ exists q from,
       fetch_query env firm f eventIdsFilter
       = (q ++ [Q_range from (from + requested - 1)])%list.
Proof.
  cbv zeta. repeat split.
  - rewrite fetch_end_allDataLoaded, processedResult_length.
    apply Z.ltb_lt.
  - rewrite fetch_end_allDataLoaded, processedResult_length.
    apply Z.ltb_lt.
  - apply dispatch_quiet, fetch_end_quiet.
  - unfold fetch_query, build_query. eexists. eexists. reflexivity.
Qed.

Lemma ceil_div_spec (a b : Z) :
  (0 < b)%Z ->
  ((ceil_div a b - 1) * b < a <= ceil_div a b * b)%Z.
Proof.
  intros Hb. unfold ceil_div.
  pose proof (Z.div_mod (- a) b ltac:(lia)) as Hdm.
  pose proof (Z.mod_pos_bound (- a) b Hb) as Hr.
  nia.
Qed.

(** C3.  [goToPage n] targets [n] clamped into
    [[0, ceil(totalCount / pageSize) - 1]]: [maxPage] is that upper end,
    the target lies in the interval whenever it is not empty, it is [n]
    itself for [n] inside, and the nearer end for [n] outside; the call
    leaves the page at the target.  When the target is the current page
    and [totalCount] is not zero the call changes no state and starts no
    fetch (with [totalCount = 0] it changes no state either). *)
Theorem goToPage_clamps (st : State) (n : Z) :
  (0 < pageSize st)%Z -> (0 <= totalCount st)%Z ->
  (maxPage st * pageSize st < totalCount st <= (maxPage st + 1) * pageSize st)%Z
  /\ ((0 < totalCount st)%Z ->
      (0 <= validPage st n <= maxPage st)%Z
      /\ ((0 <= n <= maxPage st)%Z -> validPage st n = n)
      /\ ((n < 0)%Z -> validPage st n = 0%Z)
      /\ ((maxPage st < n)%Z -> validPage st n = maxPage st)
      /\ currentPage (goToPage n st) = validPage st n)
  /\ (validPage st n = currentPage st -> totalCount st <> 0%Z ->
      goToPage n st = st /\ dispatch env (goToPage n) st = (st, []))
  /\ (totalCount st = 0%Z -> goToPage n st = st).
Proof.
  intros Hps Htc.
  pose proof (ceil_div_spec (totalCount st) (pageSize st) Hps) as Hc.
  assert (Hmax : (maxPage st * pageSize st < totalCount st
                  <= (maxPage st + 1) * pageSize st)%Z).
  { unfold maxPage. split; [lia|]. replace (ceil_div _ _ - 1 + 1)%Z
      with (ceil_div (totalCount st) (pageSize st)) by lia. lia. }
  split; [exact Hmax|]. split; [|split].
  - intros Hpos.
    assert (Hm : (0 <= maxPage st)%Z) by nia.
    repeat split; try (unfold validPage; lia).
    unfold goToPage.
    destruct (Z.eqb_spec (validPage st n) (currentPage st)) as [E|E]; simpl.
    + now rewrite E.
    + assert (Hlt : (0 <? totalCount st)%Z = true) by (apply Z.ltb_lt; lia).
      now rewrite Hlt.
  - intros E _.
    assert (G : goToPage n st = st).
    { unfold goToPage. apply Z.eqb_eq in E. now rewrite E. }
    split; [exact G | apply dispatch_noop, G].
  - intros E. unfold goToPage. rewrite E. simpl. now rewrite andb_false_r.
Qed.

End Pagination.

(** ** The run over 120 rows with pages of 50 *)

Import Scenario.

(** C1, as stated: three [loadMore()] calls accumulating 50, 50 and 20
    rows into a buffer of 120, with [allDataLoaded] true only after the
    third.  On the run the buffer never holds 120 rows and the flag is
    already true after the second call. *)
Lemma three_loadMore_calls_counterexample :
  ~ (List.length (data (cells m4)) = 120%nat
     /\ allDataLoaded (cells m2) = false
     /\ allDataLoaded (cells m3) = false
     /\ allDataLoaded (cells m4) = true).
Proof.
  intros (H & _). vm_compute in H. discriminate H.
Qed.

(** C1 (as amended).  With [pageSize = 50] over 120 matching rows the
    fetch at mount and the fetches started by the first two
    [loadMore()] calls are answered with pages of 50, 50 and 20 rows
    (each with count 120), from pages 0, 1 and 2; [allDataLoaded] is
    false after the first two of them and true after the third; a third
    [loadMore()] then starts no fetch and changes no state. *)
Theorem loadMore_pages_50_50_20 :
  map fetched [m0; call1; call2]
  = [Some (50%nat, 120%Z); Some (50%nat, 120%Z); Some (20%nat, 120%Z)]
  /\ map (fun m => currentPage (cells m)) [m1; m2; m3] = [0%Z; 1%Z; 2%Z]
  /\ map (fun m => allDataLoaded (cells m)) [m1; m2; m3] = [false; false; true]
  /\ map (fun m => List.length (inflight m)) [m0; call1; call2; call3]
     = [1%nat; 1%nat; 1%nat; 0%nat]
  /\ loadMore (cells m3) = cells m3
  /\ cells call3 = cells m3.
Proof.
  assert (Hadl : allDataLoaded (cells m3) = true) by (vm_compute; reflexivity).
  assert (Hnoop : loadMore (cells m3) = cells m3).
  { unfold loadMore. now rewrite Hadl. }
  split; [vm_compute; reflexivity|].
  split; [vm_compute; reflexivity|].
  split; [vm_compute; reflexivity|].
  split; [vm_compute; reflexivity|].
  split; [exact Hnoop|].
  change (cells (act env_50 loadMore m3) = cells m3).
  exact (proj1 (act_noop env_50 loadMore m3 Hnoop)).
Qed.

(** C8, as stated: no page advance while any load is in flight.  After
    the first page has arrived, [loadMore()] starts a pagination load
    ([paginationLoading] true, one fetch in flight, [loading] false); a
    second [loadMore()] before that fetch resolves advances the page
    again and starts a second fetch. *)
Lemma loadMore_during_pagination_load_counterexample :
  paginationLoading (cells call1) = true
  /\ loading (cells call1) = false
  /\ allDataLoaded (cells call1) = false
  /\ List.length (inflight call1) = 1%nat
  /\ currentPage (cells call1) = 1%Z
  /\ currentPage (cells (act env_50 loadMore call1)) = 2%Z
  /\ List.length (inflight (act env_50 loadMore call1)) = 2%nat.
Proof.
  split; [vm_compute; reflexivity|].
  split; [vm_compute; reflexivity|].
  split; [vm_compute; reflexivity|].
  split; [vm_compute; reflexivity|].
  split; [vm_compute; reflexivity|].
  split; vm_compute; reflexivity.
Qed.

Lemma filter_change_resets_pagination_witness :
  FilterChange (cells call1) toggleSortOrder
  /\ currentPage (cells (act env_50 toggleSortOrder call1)) = 0%Z
  /\ allDataLoaded (cells (act env_50 toggleSortOrder call1)) = false.
Proof.
  split; [constructor|].
  exact (filter_change_resets_pagination env_50 toggleSortOrder call1
           (change_sortOrder (cells call1))).
Defined.

Lemma realtime_at_page_zero_no_fetch_witness :
  currentPage (cells m1) = 0%Z
  /\ dispatch env_50 realtime_change (cells m1)
     = (setAllDataLoaded false (cells m1), []).
Proof.
  assert (H : currentPage (cells m1) = 0%Z) by (vm_compute; reflexivity).
  split; [exact H|].
  exact (proj1 (realtime_at_page_zero_no_fetch env_50 (cells m1) H)).
Defined.

Lemma goToPage_clamps_witness :
  ((0 < pageSize (cells m1))%Z /\ (0 <= totalCount (cells m1))%Z)
  /\ (maxPage (cells m1) * pageSize (cells m1) < totalCount (cells m1)
      <= (maxPage (cells m1) + 1) * pageSize (cells m1))%Z.
Proof.
  assert (H1 : (0 < pageSize (cells m1))%Z) by (vm_compute; reflexivity).
  assert (H2 : (0 <= totalCount (cells m1))%Z) by (vm_compute; discriminate).
  split; [split; assumption|].
  exact (proj1 (goToPage_clamps env_50 (cells m1) 7%Z H1 H2)).
Defined.

(** ** The grouping loop of the translator *)

Section Grouping.

Lemma gvalues_push (f0 f v k : string) (gs : Groups) :
  gvalues f0 (group_push f v k gs)
  = if f =? f0 then (gvalues f0 gs ++ [v])%list else gvalues f0 gs.
Proof.
  induction gs as [|[f' g] rest IH]; simpl.
  - unfold gvalues; simpl. now destruct (f =? f0).
  - destruct (String.eqb_spec f' f) as [->|Hne].
    + unfold gvalues; simpl. now destruct (f =? f0).
    + unfold gvalues in *; simpl.
      destruct (String.eqb_spec f' f0) as [->|Hne0].
      * apply String.eqb_neq in Hne. rewrite String.eqb_sym in Hne.
        now rewrite Hne.
      * exact IH.
Qed.

Lemma fields_push (f0 f v k : string) (gs : Groups) :
  In f0 (map fst (group_push f v k gs)) <-> f0 = f \/ In f0 (map fst gs).
Proof.
  induction gs as [|[f' g] rest IH]; simpl.
  - intuition.
  - destruct (String.eqb_spec f' f) as [->|Hne]; simpl.
    + intuition.
    + rewrite IH. intuition.
Qed.

Lemma NoDup_push (f v k : string) (gs : Groups) :
  NoDup (map fst gs) -> NoDup (map fst (group_push f v k gs)).
Proof.
  induction gs as [|[f' g] rest IH]; simpl; intros H.
  - constructor; [intros []|constructor].
  - destruct (String.eqb_spec f' f) as [->|Hne]; simpl; [exact H|].
    inversion H as [|? ? Hnin Hnd]; subst.
    constructor; [|auto].
    rewrite fields_push. intros [E|Hin]; [congruence|contradiction].
Qed.

Lemma gvalues_fold (f0 : string) (keys : list string) (gs : Groups) :
  gvalues f0 (fold_left group_step keys gs)
  = (gvalues f0 gs ++ values_for f0 keys)%list.
Proof.
  revert gs; induction keys as [|k keys IH]; intros gs; simpl.
  - now rewrite app_nil_r.
  - rewrite IH. unfold group_step.
    destruct (fieldMappings k) as [[f v]|]; [|reflexivity].
    rewrite gvalues_push.
    destruct (f =? f0); [now rewrite <- app_assoc | reflexivity].
Qed.

Lemma fields_fold (f0 : string) (keys : list string) (gs : Groups) :
  In f0 (map fst (fold_left group_step keys gs))
  <-> In f0 (map fst gs)
      \/ exists k v, In k keys /\ fieldMappings k = Some (f0, v).
Proof.
  revert gs; induction keys as [|k keys IH]; intros gs; simpl.
  - split; [auto | intros [H|(k & v & [] & _)]; exact H].
  - rewrite IH. unfold group_step.
    destruct (fieldMappings k) as [[f v]|] eqn:E.
    + rewrite fields_push. split.
      * intros [[->|H]|(k' & v' & Hin & Hm)]; eauto 7.
      * intros [H|(k' & v' & [<-|Hin] & Hm)]; eauto 7.
        rewrite E in Hm. injection Hm as -> ->. auto.
    + split.
      * intros [H|(k' & v' & Hin & Hm)]; eauto 7.
      * intros [H|(k' & v' & [<-|Hin] & Hm)]; eauto 7. congruence.
Qed.

Lemma NoDup_fold (keys : list string) (gs : Groups) :
  NoDup (map fst gs) -> NoDup (map fst (fold_left group_step keys gs)).
Proof.
  revert gs; induction keys as [|k keys IH]; intros gs H; simpl; [exact H|].
  apply IH. unfold group_step.
  destruct (fieldMappings k) as [[f v]|]; [now apply NoDup_push | exact H].
Qed.

Lemma gvalues_entry (f : string) (g : Group) (gs : Groups) :
  NoDup (map fst gs) -> In (f, g) gs -> gvalues f gs = values g.
Proof.
  induction gs as [|[f' g'] rest IH]; simpl; intros Hnd Hin; [contradiction|].
  inversion Hnd as [|? ? Hnin Hnd']; subst.
  unfold gvalues in *; simpl.
  destruct Hin as [E|Hin].
  - injection E as -> ->. now rewrite String.eqb_refl.
  - destruct (String.eqb_spec f' f) as [->|Hne].
    + exfalso. apply Hnin. apply in_map_iff. now exists (f, g).
    + now apply IH.
Qed.

(** The fields of the static table are the eight mapped columns. *)
Lemma fieldMappings_field (k f v : string) :
  fieldMappings k = Some (f, v) -> In f mapped_fields.
Proof.
  unfold fieldMappings. intros H.
  destruct (find _ fieldMappings_table) as [[k' [f' v']]|] eqn:E.
  2:{ destruct (includes inherited_names k); [|discriminate].
      injection H as <- _. unfold mapped_fields. simpl. tauto. }
  simpl in H. injection H as -> ->.
  apply find_some in E as [Hin _].
  assert (Hall : forallb (fun e => includes mapped_fields (fst (snd e)))
                   fieldMappings_table = true) by (vm_compute; reflexivity).
  rewrite forallb_forall in Hall. specialize (Hall _ Hin).
  change (existsb (String.eqb f) mapped_fields = true) in Hall.
  apply existsb_exists in Hall as (x & Hx & Heq).
  apply String.eqb_eq in Heq. now subst.
Qed.

(** Every grouped call is a membership test on a mapped field. *)
Lemma grouped_clauses_shape (others : list string) (cl : clause) :
  In cl (grouped_clauses others) ->
  exists f vs, cl = Q_in f vs /\ In f mapped_fields.
Proof.
  unfold grouped_clauses. intros H.
  apply in_flat_map in H as ([f g] & Hin & Hcl).
  destruct (0 <? List.length (values g))%nat; [|contradiction].
  destruct Hcl as [<-|[]].
  exists f, (values g). split; [reflexivity|].
  assert (Hf : In f (map fst (filterGroups others))).
  { apply in_map_iff. now exists (f, g). }
  apply fields_fold in Hf as [[]|(k & v & _ & Hm)].
  eapply fieldMappings_field; eauto.
Qed.

End Grouping.

(** ** The shape of the composed query *)

Section Composition.

Variable env : Env.

Lemma build_query_eq (firm : string) (st : State)
    (eventIdsFilter : option (list string)) :
  build_query env firm st eventIdsFilter
  = (fold_left (apply_builder (config env))
       (finalRemainingFilters (config env) (otherFilters (activeFilters st)))
       (own_clauses env firm st eventIdsFilter)
     ++ [Q_order (sortBy st) (match sortOrder st with asc => true | desc => false end);
         Q_range (currentPage st * pageSize st)
                 (currentPage st * pageSize st + pageSize st - 1)])%list.
Proof.
  unfold build_query, own_clauses.
  rewrite <- app_assoc. simpl. f_equal. f_equal.
  destruct eventIdsFilter as [ids|];
    destruct (tableName (config env) =? "quotations"); simpl;
    rewrite ?app_nil_r, <- ?app_assoc; reflexivity.
Qed.

Lemma fold_builders_keep (keep : clause -> bool) (ks : list string) (q : query) :
  builders_keep keep (config env) ->
  filter keep (fold_left (apply_builder (config env)) ks q) = filter keep q.
Proof.
  intros Hb. revert q; induction ks as [|k ks IH]; intros q; simpl; [reflexivity|].
  rewrite IH. unfold apply_builder.
  destruct (builder_of (config env) k) as [qb|] eqn:E; [|reflexivity].
  now apply (Hb k).
Qed.

Lemma filter_build_query (keep : clause -> bool) (firm : string) (st : State)
    (eventIdsFilter : option (list string)) :
  builders_keep keep (config env) ->
  filter keep (build_query env firm st eventIdsFilter)
  = (filter keep (own_clauses env firm st eventIdsFilter)
     ++ filter keep
          [Q_order (sortBy st) (match sortOrder st with asc => true | desc => false end);
           Q_range (currentPage st * pageSize st)
                   (currentPage st * pageSize st + pageSize st - 1)])%list.
Proof.
  intros Hb. rewrite build_query_eq, filter_app.
  now rewrite fold_builders_keep.
Qed.

Lemma filter_none {A : Type} (p : A -> bool) (l : list A) :
  (forall x, In x l -> p x = false) -> filter p l = [].
Proof.
  induction l as [|a l IH]; simpl; intros H; [reflexivity|].
  rewrite (H a) by now left. apply IH. intros x Hx. apply H. now right.
Qed.

Lemma existsb_none {A : Type} (p : A -> bool) (l : list A) :
  (forall x, In x l -> p x = false) -> existsb p l = false.
Proof.
  induction l as [|a l IH]; simpl; intros H; [reflexivity|].
  rewrite (H a) by now left. apply IH. intros x Hx. apply H. now right.
Qed.

Lemma existsb_same {A : Type} (p p' : A -> bool) (l : list A) :
  (forall x, In x l -> p x = p' x) -> existsb p l = existsb p' l.
Proof.
  induction l as [|a l IH]; simpl; intros H; [reflexivity|].
  rewrite (H a) by now left. rewrite IH; [reflexivity|].
  intros x Hx. apply H. now right.
Qed.

Lemma forallb_same {A : Type} (p p' : A -> bool) (l : list A) :
  (forall x, In x l -> p x = p' x) -> forallb p l = forallb p' l.
Proof.
  induction l as [|a l IH]; simpl; intros H; [reflexivity|].
  rewrite (H a) by now left. rewrite IH; [reflexivity|].
  intros x Hx. apply H. now right.
Qed.



Lemma search_clauses_cases (cl : clause) (active : bool) (term : string) :
  In cl (search_clauses (config env) active term) ->
  (exists fields pat, cl = Q_or (map (fun f => c_ilike f pat) fields) None
                      /\ fields = searchFields (config env))
  \/ (exists pat, cl = Q_or [c_ilike "name" pat] (Some "clients")
                  /\ (tableName (config env) =? "events")
                     || (tableName (config env) =? "quotations") = true).
Proof.
  unfold search_clauses.
  destruct (active && truthy (trim term)); [|intros []].
  intros H. apply in_app_or in H as [H|H].
  - destruct (0 <? _)%nat; [|contradiction].
    destruct H as [<-|[]]. left. eauto.
  - destruct (_ || _) eqn:E; [|contradiction].
    destruct H as [<-|[]]. right. eauto.
Qed.




End Composition.

(** ** Quotation status and role-based scope *)

Section StatusAndScope.

Context {B : Backend}.
Variable env : Env.


Lemma workspace_free_search (active : bool) (term : string) :
  ~ In "firm_id" (searchFields (config env)) ->
  (tableName (config env) =? "events") || (tableName (config env) =? "quotations")
  = false ->
  filter workspace_clause (search_clauses (config env) active term) = [].
Proof.
  intros Hnin Ht. apply filter_none. intros cl H.
  apply search_clauses_cases in H as [(fields & pat & -> & ->)|(pat & _ & E)];
    [|congruence].
  unfold workspace_clause; simpl. rewrite orb_false_r.
  apply existsb_none. intros c Hc.
  apply in_map_iff in Hc as (f & <- & Hf). simpl.
  apply String.eqb_neq. intros ->. contradiction.
Qed.

Lemma workspace_free_grouped (others : list string) :
  filter workspace_clause (grouped_clauses others) = [].
Proof.
  apply filter_none. intros cl H.
  apply grouped_clauses_shape in H as (f & vs & -> & Hf).
  unfold workspace_clause; simpl. rewrite orb_false_r.
  apply String.eqb_neq. intros ->.
  repeat (destruct Hf as [Hf|Hf]; [discriminate Hf|]). contradiction.
Qed.

(** Rows that differ in [firm_id] only are told apart by workspace
    clauses alone. *)
Lemma sat_off_workspace (r r' : Row) (cl : clause) :
  (forall c, c <> "firm_id" -> r c = r' c) ->
  workspace_clause cl = false -> sat r cl = sat r' cl.
Proof.
  intros Hagree Hw. unfold workspace_clause in Hw.
  apply orb_false_elim in Hw as [Hcol Hfor].
  assert (Hv : forall c, (c =? "firm_id") = false -> r c = r' c).
  { intros c Hc. apply Hagree. now apply String.eqb_neq. }
  destruct cl as [c v|c vs|c|c|c v|cs [t|]|c a|a b]; simpl in *;
    try discriminate; try reflexivity;
    try (unfold has_value, is_null; rewrite (Hv c Hcol); reflexivity).
  - induction cs as [|c cs IH]; simpl in *; [reflexivity|].
    apply orb_false_elim in Hcol as [Hc Hcs].
    rewrite (IH Hcs). f_equal.
    destruct c; simpl in *; unfold has_value, is_null;
      now rewrite (Hv _ Hc).
Qed.

Lemma matches_off_workspace (r r' : Row) (q : query) :
  (forall c, c <> "firm_id" -> r c = r' c) ->
  filter workspace_clause q = [] -> matches r q = matches r' q.
Proof.
  intros Hagree. unfold matches.
  induction q as [|cl q IH]; simpl; intros H; [reflexivity|].
  destruct (workspace_clause cl) eqn:E; [discriminate|].
  now rewrite (sat_off_workspace r r' cl Hagree E), (IH H).
Qed.

End StatusAndScope.

(** ** The concrete configurations satisfy the assumptions on builders *)

Lemma list_config_builder (table k : string) (qb : query -> query) :
  builder_of (list_config table) k = Some qb ->
  qb = fun q => (q ++ [Q_not_is_null "email"])%list.
Proof.
  unfold builder_of, list_config.
  cbn [filterOptions find key queryBuilder has_email label_only].
  destruct ("has_email" =? k); [intros [= H]; now symmetry|].
  destruct ("label_only" =? k); discriminate.
Qed.

Lemma list_config_keeps (keep : clause -> bool) (table : string) :
  keep (Q_not_is_null "email") = false ->
  builders_keep keep (list_config table).
Proof.
  intros Hk k qb q H. apply list_config_builder in H. subst qb.
  rewrite filter_app; simpl. rewrite Hk. apply app_nil_r.
Qed.

Lemma list_config_appends (table : string) :
  builders_append (list_config table).
Proof.
  intros k qb q H. apply list_config_builder in H. subst qb.
  split; reflexivity.
Qed.


(** ** Grouped filters: alternatives within a column, conjunction across *)

Section Permutations.

Context {A : Type}.

Lemma Permutation_filter (p : A -> bool) (l l' : list A) :
  Permutation l l' -> Permutation (filter p l) (filter p l').
Proof.
  induction 1 as [|x l l' _ IH|x y l|l l' l'' _ IH1 _ IH2]; simpl.
  - constructor.
  - destruct (p x); [now constructor | exact IH].
  - destruct (p x), (p y); try apply Permutation_refl. constructor.
  - eapply Permutation_trans; eauto.
Qed.

Lemma Permutation_flat_map_list {C : Type} (g : A -> list C) (l l' : list A) :
  Permutation l l' -> Permutation (flat_map g l) (flat_map g l').
Proof.
  induction 1 as [|x l l' _ IH|x y l|l l' l'' _ IH1 _ IH2]; simpl.
  - constructor.
  - now apply Permutation_app_head.
  - rewrite !app_assoc. apply Permutation_app_tail, Permutation_app_comm.
  - eapply Permutation_trans; eauto.
Qed.

Lemma existsb_Permutation (p : A -> bool) (l l' : list A) :
  Permutation l l' -> existsb p l = existsb p l'.
Proof.
  induction 1 as [|x l l' _ IH|x y l|l l' l'' _ IH1 _ IH2]; simpl.
  - reflexivity.
  - now rewrite IH.
  - now rewrite !orb_assoc, (orb_comm (p y)).
  - congruence.
Qed.

Lemma forallb_Permutation (p : A -> bool) (l l' : list A) :
  Permutation l l' -> forallb p l = forallb p l'.
Proof.
  induction 1 as [|x l l' _ IH|x y l|l l' l'' _ IH1 _ IH2]; simpl.
  - reflexivity.
  - now rewrite IH.
  - now rewrite !andb_assoc, (andb_comm (p y)).
  - congruence.
Qed.

End Permutations.

Section GroupedSemantics.

Context {B : Backend}.

Lemma in_values_for (k f v : string) (keys : list string) :
  In k keys -> fieldMappings k = Some (f, v) -> In v (values_for f keys).
Proof.
  intros Hin Hm. unfold values_for. apply in_flat_map.
  exists k. split; [exact Hin|]. rewrite Hm, String.eqb_refl. now left.
Qed.

Lemma filterGroups_entry (f : string) (g : Group) (keys : list string) :
  In (f, g) (filterGroups keys) -> values g = values_for f keys.
Proof.
  intros Hin. unfold filterGroups in *.
  rewrite <- (gvalues_entry f g _ (NoDup_fold keys [] (NoDup_nil _)) Hin).
  now rewrite gvalues_fold.
Qed.

(** The grouping loop computes the membership filter of the
    specification. *)
Lemma matches_grouped (r : Row) (keys : list string) :
  matches r (grouped_clauses keys) = column_membership r keys.
Proof.
  apply eq_true_iff_eq. unfold matches, column_membership, grouped_clauses.
  rewrite !forallb_forall. split.
  - intros H k Hk.
    destruct (fieldMappings k) as [[f v]|] eqn:Hm; [|reflexivity].
    assert (Hf : In f (map fst (filterGroups keys))).
    { apply fields_fold. right. eauto. }
    apply in_map_iff in Hf as ([f' g] & Hfst & Hin). simpl in Hfst. subst f'.
    pose proof (filterGroups_entry f g keys Hin) as Hv.
    pose proof (in_values_for k f v keys Hk Hm) as Hnonempty.
    specialize (H (Q_in f (values g))).
    rewrite <- Hv. apply H.
    apply in_flat_map. exists (f, g). split; [exact Hin|].
    rewrite Hv. destruct (values_for f keys); [contradiction|]. now left.
  - intros H cl Hcl.
    apply in_flat_map in Hcl as ([f g] & Hin & Hcl).
    destruct (0 <? List.length (values g))%nat; [|contradiction].
    destruct Hcl as [<-|[]]. simpl.
    assert (Hf : In f (map fst (filterGroups keys))).
    { apply in_map_iff. now exists (f, g). }
    apply fields_fold in Hf as [[]|(k & v & Hk & Hm)].
    specialize (H k Hk). rewrite Hm in H.
    now rewrite (filterGroups_entry f g keys Hin).
Qed.

Lemma values_for_Permutation (f : string) (keys keys' : list string) :
  Permutation keys keys' -> Permutation (values_for f keys) (values_for f keys').
Proof. apply Permutation_flat_map_list. Qed.

Lemma column_membership_Permutation (r : Row) (keys keys' : list string) :
  Permutation keys keys' ->
  column_membership r keys = column_membership r keys'.
Proof.
  intros HP. unfold column_membership.
  rewrite (forallb_Permutation _ keys keys' HP).
  apply forallb_same. intros k _.
  destruct (fieldMappings k) as [[f v]|]; [|reflexivity].
  apply existsb_Permutation, values_for_Permutation, HP.
Qed.

End GroupedSemantics.

(** ** The result of a fetch does not depend on the order of the keys *)

Section KeyOrder.

Context {B : Backend}.
Variable env : Env.

Lemma includes_Permutation (fs fs' : list string) (k : string) :
  Permutation fs fs' -> includes fs k = includes fs' k.
Proof. apply existsb_Permutation. Qed.

Lemma otherFilters_Permutation (fs fs' : list string) :
  Permutation fs fs' -> Permutation (otherFilters fs) (otherFilters fs').
Proof. apply Permutation_filter. Qed.

Lemma fold_builders_append (ks : list string) (q : query) :
  builders_append (config env) ->
  fold_left (apply_builder (config env)) ks q
  = (q ++ flat_map (added (config env)) ks)%list.
Proof.
  intros Hb. revert q; induction ks as [|k ks IH]; intros q; simpl.
  - now rewrite app_nil_r.
  - rewrite IH, app_assoc. f_equal.
    unfold apply_builder, added.
    destruct (builder_of (config env) k) as [qb|] eqn:E.
    + apply (Hb k qb q E).
    + now rewrite app_nil_r.
Qed.

Lemma added_filters (ks : list string) :
  builders_append (config env) ->
  forallb is_filter (flat_map (added (config env)) ks) = true.
Proof.
  intros Hb. apply forallb_forall. intros cl H.
  apply in_flat_map in H as (k & _ & Hcl). unfold added in Hcl.
  destruct (builder_of (config env) k) as [qb|] eqn:E; [|contradiction].
  destruct (Hb k qb [] E) as [_ Hf].
  rewrite forallb_forall in Hf. now apply Hf.
Qed.

Lemma remainingFilters_Permutation (o o' : list string) :
  Permutation o o' -> Permutation (remainingFilters o) (remainingFilters o').
Proof.
  intros HP. unfold remainingFilters.
  rewrite (filter_ext (fun k => negb (includes (groupedFilters o) k))
                      (fun k => negb (includes (groupedFilters o') k))).
  - now apply Permutation_filter.
  - intros k. f_equal. apply includes_Permutation.
    unfold groupedFilters. now apply Permutation_filter.
Qed.

Lemma finalRemainingFilters_Permutation (o o' : list string) :
  Permutation o o' ->
  Permutation (finalRemainingFilters (config env) o)
              (finalRemainingFilters (config env) o').
Proof.
  intros HP. pose proof (remainingFilters_Permutation o o' HP) as HR.
  unfold finalRemainingFilters.
  destruct (tableName (config env) =? "quotations"); [|exact HR].
  rewrite !(includes_Permutation _ _ _ HR).
  now apply Permutation_filter.
Qed.

Lemma quotation_status_Permutation (td : string) (fs fs' : list string) :
  Permutation fs fs' -> quotation_status td fs' = quotation_status td fs.
Proof.
  intros HP. unfold quotation_status.
  now rewrite !(includes_Permutation _ _ _ HP).
Qed.

Lemma own_clauses_filters (firm : string) (st : State)
    (ids : option (list string)) :
  forallb is_filter (own_clauses env firm st ids) = true.
Proof.
  unfold own_clauses. rewrite !forallb_app.
  repeat (apply andb_true_iff; split).
  - unfold scope_clauses.
    destruct (tableName (config env) =? "tasks");
      [|destruct (tableName (config env) =? "event_staff_assignments")];
      destruct (isAdmin (profile env)); try reflexivity;
      destruct (profile_id_of (profile env)); reflexivity.
  - now destruct ids.
  - destruct (tableName (config env) =? "quotations"); [|reflexivity].
    unfold quotation_status.
    destruct (includes _ "converted"); [reflexivity|].
    destruct (includes _ "expired"); [reflexivity|].
    destruct (_ || _); reflexivity.
  - apply forallb_forall. intros cl H.
    apply (search_clauses_cases env) in H
      as [(fields & pat & -> & _)|(pat & -> & _)]; reflexivity.
  - apply forallb_forall. intros cl H.
    apply grouped_clauses_shape in H as (f & vs & -> & _). reflexivity.
Qed.

Lemma post_filters (F : list clause) (rows : list Row) :
  forallb is_filter F = true -> fold_left post F rows = rows.
Proof.
  induction F as [|cl F IH]; simpl; intros H; [reflexivity|].
  apply andb_true_iff in H as [Hc HF]. rewrite <- (IH HF) at 2.
  f_equal. now destruct cl.
Qed.

Lemma matches_app (r : Row) (a b : query) :
  matches r (a ++ b)%list = matches r a && matches r b.
Proof. apply forallb_app. Qed.

Lemma matches_own_Permutation (r : Row) (firm : string) (st : State)
    (fs' : list string) (ids : option (list string)) :
  Permutation (activeFilters st) fs' ->
  matches r (own_clauses env firm (setActiveFilters fs' st) ids)
  = matches r (own_clauses env firm st ids).
Proof.
  intros HP. unfold own_clauses.
  cbn [activeFilters isSearchActive debouncedSearchTerm setActiveFilters].
  rewrite (quotation_status_Permutation _ _ _ HP).
  rewrite !matches_app, !matches_grouped.
  now rewrite (column_membership_Permutation r _ _ (otherFilters_Permutation _ _ HP)).
Qed.

Lemma run_query_Permutation (table : list Row) (firm : string) (st : State)
    (fs' : list string) (ids : option (list string)) :
  builders_append (config env) ->
  Permutation (activeFilters st) fs' ->
  run_query table (build_query env firm (setActiveFilters fs' st) ids)
  = run_query table (build_query env firm st ids).
Proof.
  intros Hb HP.
  rewrite !build_query_eq, !fold_builders_append by exact Hb.
  cbn [activeFilters sortBy sortOrder currentPage pageSize setActiveFilters].
  set (tail := [Q_order _ _; Q_range _ _]).
  set (F' := (own_clauses env firm (setActiveFilters fs' st) ids ++ _)%list).
  set (F := (own_clauses env firm st ids ++ _)%list).
  assert (HF' : forallb is_filter F' = true).
  { unfold F'. rewrite forallb_app, own_clauses_filters, added_filters; auto. }
  assert (HF : forallb is_filter F = true).
  { unfold F. rewrite forallb_app, own_clauses_filters, added_filters; auto. }
  assert (Hm : forall r, matches r (F' ++ tail)%list = matches r (F ++ tail)%list).
  { intros r. rewrite !matches_app. f_equal. unfold F', F.
    rewrite !matches_app, (matches_own_Permutation r firm st fs' ids HP).
    f_equal. unfold matches.
    apply forallb_Permutation, Permutation_flat_map_list, Permutation_sym.
    apply finalRemainingFilters_Permutation, otherFilters_Permutation, HP. }
  unfold run_query.
  rewrite (filter_ext _ _ Hm), !fold_left_app.
  now rewrite (post_filters F' _ HF'), (post_filters F _ HF).
Qed.

Lemma roleConditions_Permutation (fs fs' : list string) :
  Permutation fs fs' -> Permutation (roleConditions fs) (roleConditions fs').
Proof.
  intros HP. unfold roleConditions, roleFilters.
  now apply Permutation_flat_map_list, Permutation_filter.
Qed.

Lemma prefilter_Permutation (table : list Row) (firm : string)
    (fs fs' : list string) :
  Permutation fs fs' ->
  run_query table (prefilter_query firm fs')
  = run_query table (prefilter_query firm fs).
Proof.
  intros HP. unfold run_query, prefilter_query.
  rewrite (filter_ext (fun r => matches r [Q_eq "firm_id" firm;
                                           Q_in "role" (roleConditions fs')])
                      (fun r => matches r [Q_eq "firm_id" firm;
                                           Q_in "role" (roleConditions fs)])).
  - reflexivity.
  - intros r. simpl. do 2 f_equal.
    apply existsb_Permutation, Permutation_sym, roleConditions_Permutation, HP.
Qed.

Lemma needs_prefilter_Permutation (fs fs' : list string) :
  Permutation fs fs' ->
  needs_prefilter (config env) fs' = needs_prefilter (config env) fs.
Proof.
  intros HP. unfold needs_prefilter, roleFilters.
  now rewrite (Permutation_length (Permutation_filter (includes roleKeys) _ _ HP)).
Qed.

Lemma respond_Permutation (db : Database) (firm : string) (f : Fetch)
    (fs' : list string) :
  builders_append (config env) ->
  Permutation (activeFilters (f_render f)) fs' ->
  respond db env firm (with_filters fs' f) = respond db env firm f.
Proof.
  intros Hb HP. unfold respond, fetch_query, with_filters.
  cbn [f_render activeFilters setActiveFilters].
  rewrite (needs_prefilter_Permutation _ _ HP).
  rewrite (prefilter_Permutation _ firm _ _ HP).
  now rewrite (run_query_Permutation _ firm (f_render f) fs' _ Hb HP).
Qed.

(** C4 (as amended).  For every active filter set, the keys outside the
    reserved role and staff-status keys that have a static mapping are
    applied as one membership test per target column: keys on one column
    are alternatives, different columns are conjoined.  The grouped
    calls are part of the composed query, and permuting the active keys
    changes neither the rows nor the count a fetch is answered with (the
    custom builders being filters appended to the query). *)
Theorem grouped_filters_or_within_and_across (db : Database) (firm : string)
    (f : Fetch) (fs' : list string) :
  builders_append (config env) ->
  Permutation (activeFilters (f_render f)) fs' ->
  (forall r keys,
      matches r (grouped_clauses (otherFilters keys))
      = column_membership r (otherFilters keys))
  /\ (forall r k1 k2 col v1 v2,
         reserved k1 = false -> reserved k2 = false ->
         fieldMappings k1 = Some (col, v1) -> fieldMappings k2 = Some (col, v2) ->
         matches r (grouped_clauses (otherFilters [k1; k2]))
         = has_value r col v1 || has_value r col v2)
  /\ (forall r k1 k2 col1 col2 v1 v2,
         reserved k1 = false -> reserved k2 = false -> col1 <> col2 ->
         fieldMappings k1 = Some (col1, v1) -> fieldMappings k2 = Some (col2, v2) ->
         matches r (grouped_clauses (otherFilters [k1; k2]))
         = has_value r col1 v1 && has_value r col2 v2)
  /\ (forall ids, exists before,
         own_clauses env firm (f_render f) ids
         = (before ++ grouped_clauses (otherFilters (activeFilters (f_render f))))%list)
  /\ respond db env firm (with_filters fs' f) = respond db env firm f.
Proof.
  intros Hb HP.
  assert (Hother : forall k1 k2, reserved k1 = false -> reserved k2 = false ->
                                 otherFilters [k1; k2] = [k1; k2]).
  { intros k1 k2 H1 H2. unfold otherFilters. cbn [filter].
    fold (reserved k1). fold (reserved k2). now rewrite H1, H2. }
  split; [intros; apply matches_grouped|].
  split; [|split; [|split]].
  - intros r k1 k2 col v1 v2 H1 H2 M1 M2.
    rewrite (Hother k1 k2 H1 H2), matches_grouped.
    unfold column_membership, values_for; cbn [forallb flat_map].
    rewrite M1, M2, String.eqb_refl; cbn [app existsb].
    rewrite !orb_false_r, andb_true_r. apply andb_diag.
  - intros r k1 k2 col1 col2 v1 v2 H1 H2 Hne M1 M2.
    rewrite (Hother k1 k2 H1 H2), matches_grouped.
    unfold column_membership, values_for; cbn [forallb flat_map].
    rewrite M1, M2, !String.eqb_refl.
    assert (E1 : (col1 =? col2) = false) by now apply String.eqb_neq.
    assert (E2 : (col2 =? col1) = false) by (apply String.eqb_neq; congruence).
    rewrite E1, E2; cbn [app existsb].
    now rewrite !orb_false_r, andb_true_r.
  - intros ids. unfold own_clauses. rewrite !app_assoc. eexists. reflexivity.
  - now apply respond_Permutation.
Qed.

End KeyOrder.

(** C4, as stated for every key with a static mapping: [photographer]
    maps to [role = Photographer], yet with that key active on the
    freelancers list the composed query accepts a row whose role is
    [Editor], which the membership reading rejects. *)
Lemma role_key_not_grouped_counterexample :
  fieldMappings "photographer" = Some ("role", "Photographer")
  /\ matches (B := plain_backend) editor_row
       (build_query env_freelancers firm1 st_photographer None) = true
  /\ column_membership editor_row (activeFilters st_photographer) = false.
Proof.
  split; [vm_compute; reflexivity|].
  split; vm_compute; reflexivity.
Qed.

Lemma grouped_filters_or_within_and_across_witness :
  (builders_append (config env_events)
   /\ Permutation (activeFilters (f_render fetch_events)) permuted_keys)
  /\ respond (B := plain_backend) studio env_events firm1
       (with_filters permuted_keys fetch_events)
     = respond (B := plain_backend) studio env_events firm1 fetch_events.
Proof.
  assert (H1 : builders_append (config env_events))
    by apply list_config_appends.
  assert (H2 : Permutation (activeFilters (f_render fetch_events)) permuted_keys)
    by apply perm_swap.
  split; [split; assumption|].
  exact (proj2 (proj2 (proj2 (proj2
           (grouped_filters_or_within_and_across (B := plain_backend) env_events
              studio firm1 fetch_events permuted_keys H1 H2))))).
Defined.


(** The key [pending] of quotations is also a key of the static table
    (a task status), so the generic pass adds a test of [status] next to
    the validity test. *)
Example quotation_pending_is_mapped :
  build_query env_quotations firm1
    (setActiveFilters ["pending"] (initial env_quotations)) None
  = [Q_eq "firm_id" firm1;
     Q_is_null "converted_to_event";
     Q_or [c_is_null "valid_until"; c_gte "valid_until" "2025-06-15"] None;
     Q_in "status" ["Pending"];
     Q_order "created_at" false;
     Q_range 0 49].
Proof. vm_compute. reflexivity. Qed.

(* ================================================================== *)
(** * Further properties of the hook *)
(* ================================================================== *)

(** ** What the effects start *)

Lemma sortOrder_eqb_eq (a b : SortOrder) : sortOrder_eqb a b = true <-> a = b.
Proof. destruct a, b; simpl; split; congruence. Qed.

Lemma same_filter_deps_iff (a b : State) :
  same_filter_deps a b = true
  <-> isSearchActive a = isSearchActive b
      /\ debouncedSearchTerm a = debouncedSearchTerm b
      /\ activeFilters a = activeFilters b
      /\ sortBy a = sortBy b
      /\ sortOrder a = sortOrder b.
Proof.
  unfold same_filter_deps.
  rewrite !andb_true_iff, eqb_true_iff, !String.eqb_eq, strings_eqb_eq,
    sortOrder_eqb_eq.
  tauto.
Qed.

Lemma same_filter_deps_trans (a b c : State) :
  same_filter_deps a b = true -> same_filter_deps b c = true ->
  same_filter_deps a c = true.
Proof.
  rewrite !same_filter_deps_iff.
  intros (H1 & H2 & H3 & H4 & H5) (K1 & K2 & K3 & K4 & K5).
  repeat split; congruence.
Qed.

Lemma resetPagination_filter_deps (st : State) :
  same_filter_deps st (resetPagination st) = true.
Proof. deps_refl. Qed.

Section Reach.

Variable env : Env.

Lemma run_effects_shape (prev cur : State) :
  snd (run_effects env prev cur) = []
  \/ (exists firm, firm_of env = Some firm)
     /\ snd (run_effects env prev cur) = [effect_fetch cur].
Proof.
  unfold run_effects.
  destruct (same_fetch_deps prev cur); [now left|].
  unfold fetch_begin. destruct (firm_of env) as [firm|]; [|now left].
  right. split; [now exists firm | reflexivity].
Qed.

Lemma run_effects_filter_deps (prev cur : State) :
  same_filter_deps cur (fst (run_effects env prev cur)) = true.
Proof.
  unfold run_effects.
  set (st := if same_filter_deps prev cur then cur else resetPagination cur).
  assert (Hst : same_filter_deps cur st = true).
  { unfold st. destruct (same_filter_deps prev cur);
      [apply same_filter_deps_refl | apply resetPagination_filter_deps]. }
  destruct (same_fetch_deps prev cur); [exact Hst|].
  eapply same_filter_deps_trans; [exact Hst|].
  apply fetch_begin_cells.
Qed.

(** Without a filter change an effect round writes busy flags only. *)
Lemma run_effects_second_round (prev cur : State) :
  same_filter_deps prev cur = true ->
  same_fetch_deps cur (fst (run_effects env prev cur)) = true.
Proof.
  intros H. unfold run_effects. rewrite H.
  destruct (same_fetch_deps prev cur); [apply same_fetch_deps_refl|].
  apply fetch_begin_quiet.
Qed.

Lemma commit_two_rounds (n : nat) (prev cur : State) :
  commit (2 + n) env prev cur = commit 2 env prev cur.
Proof.
  change (commit (2 + n) env prev cur) with
    (let '(s1, f1) := run_effects env prev cur in
     let '(s2, f2) := (let '(s, f) := run_effects env cur s1 in
                       let '(s', f') := commit n env s1 s in (s', (f ++ f')%list)) in
     (s2, (f1 ++ f2)%list)).
  change (commit 2 env prev cur) with
    (let '(s1, f1) := run_effects env prev cur in
     let '(s2, f2) := (let '(s, f) := run_effects env cur s1 in
                       let '(s', f') := commit 0 env s1 s in (s', (f ++ f')%list)) in
     (s2, (f1 ++ f2)%list)).
  pose proof (run_effects_filter_deps prev cur) as H1.
  destruct (run_effects env prev cur) as [s1 f1]; simpl in H1.
  pose proof (run_effects_second_round cur s1 H1) as H2.
  destruct (run_effects env cur s1) as [s2 f2]; simpl in H2.
  now rewrite (commit_quiet env n s1 s2 H2).
Qed.

Lemma commit_fetches (n : nat) (prev cur : State) :
  Forall (fun f => f_append f = false) (snd (commit n env prev cur))
  /\ (List.length (snd (commit n env prev cur)) <= 2)%nat.
Proof.
  assert (Hone : forall p c,
             Forall (fun f => f_append f = false) (snd (run_effects env p c))
             /\ (List.length (snd (run_effects env p c)) <= 1)%nat).
  { intros p c. destruct (run_effects_shape p c) as [E|[_ E]]; rewrite E;
      split; simpl; auto. }
  destruct n as [|[|n]].
  - simpl. split; [constructor | lia].
  - simpl. destruct (Hone prev cur) as [Ha Hl].
    destruct (run_effects env prev cur) as [s1 f1]; simpl in *.
    rewrite app_nil_r. split; [exact Ha | lia].
  - change (S (S n)) with (2 + n)%nat. rewrite commit_two_rounds. simpl.
    destruct (Hone prev cur) as [Ha Hl].
    destruct (run_effects env prev cur) as [s1 f1]; simpl in *.
    destruct (Hone cur s1) as [Ha' Hl'].
    destruct (run_effects env cur s1) as [s2 f2]; simpl in *.
    rewrite app_nil_r. split.
    + apply Forall_app; split; assumption.
    + rewrite length_app. lia.
Qed.

(** X1.  After a state update the two effects settle within two rounds
    of rendering: running further rounds changes neither the state nor
    the list of fetches started, and one update starts at most two
    fetches. *)
Theorem effects_settle_in_two_rounds (h : State -> State) (st : State) (n : nat) :
  commit (3 + n) env st (h st) = dispatch env h st
  /\ (List.length (snd (dispatch env h st)) <= 2)%nat.
Proof.
  unfold dispatch. split.
  - change (3 + n)%nat with (2 + S n)%nat. change 3%nat with (2 + 1)%nat.
    now rewrite !commit_two_rounds.
  - apply commit_fetches.
Qed.

(** X2.  No fetch that the hook starts appends: the fetches of every
    state update, of mounting and of [refetch] are all called with
    [append = false], so a successful completion of any of them sets
    the buffer to the rows of that one reply. *)
Theorem hook_never_appends {B : Backend} (h : State -> State) (st render : State) :
  Forall (fun f => f_append f = false
                   /\ forall result count st',
                        data (fetch_end env f (Reply_ok result count) st')
                        = processedResult env result)
         (snd (dispatch env h st) ++ snd (mount env)
          ++ snd (refetch env render st))%list.
Proof.
  assert (Hdata : forall f, f_append f = false ->
            f_append f = false
            /\ forall result count st',
                 data (fetch_end env f (Reply_ok result count) st')
                 = processedResult env result).
  { intros f Hf. split; [exact Hf|]. intros result count st'.
    unfold fetch_end. rewrite Hf.
    destruct (f_isPagination f), (isFirstLoad (f_render f)); reflexivity. }
  assert (Hbegin : forall r i s,
            Forall (fun f => f_append f = false)
                   (snd (fetch_begin env r false i s))).
  { intros r i s. unfold fetch_begin.
    destruct (firm_of env); simpl; repeat constructor. }
  eapply Forall_impl; [exact Hdata|].
  repeat (apply Forall_app; split).
  - apply commit_fetches.
  - unfold mount.
    pose proof (Hbegin (initial env) false (resetPagination (initial env))) as H1.
    destruct (fetch_begin env (initial env) false false
                (resetPagination (initial env))) as [s fs]; simpl in H1.
    pose proof (commit_fetches 3 (initial env) s) as [H2 _].
    destruct (commit 3 env (initial env) s) as [s' fs']; simpl in *.
    apply Forall_app; split; assumption.
  - apply Hbegin.
Qed.


Lemma fetch_begin_fields (render st : State) (append isPagination : bool) :
  let st' := fst (fetch_begin env render append isPagination st) in
  currentPage st' = currentPage st /\ pageSize st' = pageSize st
  /\ allDataLoaded st' = allDataLoaded st /\ data st' = data st
  /\ totalCount st' = totalCount st /\ isFirstLoad st' = isFirstLoad st
  /\ activeFilters st' = activeFilters st /\ sortBy st' = sortBy st
  /\ sortOrder st' = sortOrder st /\ isSearchActive st' = isSearchActive st
  /\ debouncedSearchTerm st' = debouncedSearchTerm st
  /\ searchTerm st' = searchTerm st.
Proof.
  unfold fetch_begin.
  destruct (firm_of env); simpl.
  - destruct isPagination; [|destruct append; simpl;
      [|destruct (isFirstLoad render && _)]]; simpl; now repeat split.
  - now repeat split.
Qed.

(** X3.  Without a current workspace nothing is ever fetched: mounting
    lowers both busy flags and leaves the buffer empty, and no state
    update starts a fetch. *)
Theorem no_workspace_no_fetch (h : State -> State) (st : State) :
  firm_of env = None ->
  snd (dispatch env h st) = []
  /\ mount env
     = (setPaginationLoading false (setLoading false (initial env)), [])
  /\ loading (fst (mount env)) = false
  /\ data (fst (mount env)) = [].
Proof.
  intros Hfirm.
  assert (Hrun : forall p c, snd (run_effects env p c) = []).
  { intros p c. destruct (run_effects_shape p c) as [E|[[firm E] _]];
      [exact E | congruence]. }
  assert (Hcommit : forall n p c, snd (commit n env p c) = []).
  { induction n as [|n IH]; intros p c; simpl; [reflexivity|].
    pose proof (Hrun p c) as H1.
    destruct (run_effects env p c) as [s1 f1]; simpl in H1. subst f1.
    pose proof (IH c s1) as H2.
    destruct (commit n env c s1) as [s2 f2]; simpl in *. now subst f2. }
  assert (Hmount : mount env
            = (setPaginationLoading false (setLoading false (initial env)), [])).
  { unfold mount, fetch_begin. rewrite Hfirm.
    rewrite commit_quiet by deps_refl. reflexivity. }
  split; [apply Hcommit|]. split; [exact Hmount|].
  rewrite Hmount. split; reflexivity.
Qed.

(** A state update that changes the dependencies of the fetch effect
    but no filter starts exactly one fetch, from the updated render. *)
Lemma dispatch_one_fetch (h : State -> State) (st : State) (firm : string) :
  firm_of env = Some firm ->
  same_filter_deps st (h st) = true ->
  same_fetch_deps st (h st) = false ->
  dispatch env h st
  = (fst (fetch_begin env (h st) false (f_isPagination (effect_fetch (h st))) (h st)),
     [effect_fetch (h st)]).
Proof.
  intros Hfirm Hsame Hfetch.
  pose proof (fetch_begin_quiet env (h st) (h st) false
                (f_isPagination (effect_fetch (h st)))) as Hq.
  pose proof (fetch_begin_started env (h st) (h st) false
                (f_isPagination (effect_fetch (h st))) firm Hfirm) as Hs.
  assert (Hrun : run_effects env st (h st)
                 = fetch_begin env (h st) false
                     (f_isPagination (effect_fetch (h st))) (h st)).
  { unfold run_effects. now rewrite Hsame, Hfetch. }
  destruct (fetch_begin env (h st) false
              (f_isPagination (effect_fetch (h st))) (h st)) as [st1 fs] eqn:E.
  simpl in Hq, Hs. subst fs.
  unfold dispatch.
  change (commit 3 env st (h st)) with
    (let '(s, f) := run_effects env st (h st) in
     let '(s', f') := commit 2 env (h st) s in (s', (f ++ f')%list)).
  now rewrite Hrun, (commit_quiet env 2 (h st) st1 Hq).
Qed.

(** X4.  A change of a filter dependency on page 0 starts one fetch, for
    page 0.  On a later page it starts two: the first still asks for the
    old page (under the new filters), the second, from the render after
    the reset, asks for page 0; both are in flight together. *)
Theorem filter_change_fetches (h : State -> State) (st : State) (firm : string) :
  firm_of env = Some firm ->
  same_filter_deps st (h st) = false ->
  exists st',
    fst (dispatch env h st) = st'
    /\ currentPage st' = 0%Z
    /\ same_filter_deps (h st) st' = true
    /\ pageSize st' = pageSize (h st)
    /\ snd (dispatch env h st)
       = if (currentPage (h st) =? 0)%Z then [effect_fetch (h st)]
         else [effect_fetch (h st);
               {| f_append := false; f_isPagination := false;
                  f_render := fst (fetch_begin env (h st) false
                                     (f_isPagination (effect_fetch (h st)))
                                     (resetPagination (h st))) |}].
Proof.
  intros Hfirm Hchg.
  set (c1 := h st).
  set (i1 := f_isPagination (effect_fetch c1)).
  assert (Hfetch : same_fetch_deps st c1 = false).
  { unfold same_fetch_deps. fold c1 in Hchg. now rewrite Hchg. }
  assert (Hrun1 : run_effects env st c1
                  = fetch_begin env c1 false i1 (resetPagination c1)).
  { unfold run_effects. fold c1 in Hchg. now rewrite Hchg, Hfetch. }
  pose proof (fetch_begin_fields c1 (resetPagination c1) false i1) as Hf.
  pose proof (fetch_begin_started env c1 (resetPagination c1) false i1 firm Hfirm)
    as Hs1.
  pose proof (fetch_begin_cells env c1 (resetPagination c1) false i1)
    as (_ & _ & _ & _ & _ & Hfd).
  destruct (fetch_begin env c1 false i1 (resetPagination c1)) as [s1 f1] eqn:E1.
  cbv zeta in Hf. simpl in Hf, Hs1, Hfd.
  destruct Hf as (Hp & Hps & _).
  assert (Hsame1 : same_filter_deps c1 s1 = true).
  { eapply same_filter_deps_trans; [apply resetPagination_filter_deps | exact Hfd]. }
  unfold dispatch. fold c1.
  change (commit 3 env st c1) with
    (let '(s, f) := run_effects env st c1 in
     let '(s', f') := commit 2 env c1 s in (s', (f ++ f')%list)).
  rewrite Hrun1. subst f1.
  destruct (Z.eqb_spec (currentPage c1) 0) as [Hz|Hnz].
  - assert (Hq : same_fetch_deps c1 s1 = true).
    { unfold same_fetch_deps. rewrite Hsame1, Hp, Hps, Hz. simpl.
      now rewrite Z.eqb_refl. }
    rewrite (commit_quiet env 2 c1 s1 Hq). simpl.
    exists s1. repeat split; assumption.
  - assert (Hq : same_fetch_deps c1 s1 = false).
    { unfold same_fetch_deps. rewrite Hsame1, Hp. simpl.
      assert (E : (currentPage c1 =? 0)%Z = false) by now apply Z.eqb_neq.
      now rewrite E. }
    change (commit 2 env c1 s1) with
      (let '(s, f) := run_effects env c1 s1 in
       let '(s', f') := commit 1 env s1 s in (s', (f ++ f')%list)).
    assert (Hrun2 : run_effects env c1 s1 = fetch_begin env s1 false false s1).
    { unfold run_effects. rewrite Hsame1, Hq, Hp. reflexivity. }
    rewrite Hrun2.
    pose proof (fetch_begin_quiet env s1 s1 false false) as Hq2.
    pose proof (fetch_begin_started env s1 s1 false false firm Hfirm) as Hs2.
    pose proof (fetch_begin_fields s1 s1 false false) as Hf2.
    pose proof (fetch_begin_cells env s1 s1 false false)
      as (_ & _ & _ & _ & _ & Hfd2).
    destruct (fetch_begin env s1 false false s1) as [s2 f2] eqn:E2.
    cbv zeta in Hf2. simpl in Hq2, Hs2, Hf2, Hfd2.
    destruct Hf2 as (Hp2 & Hps2 & _). subst f2.
    rewrite (commit_quiet env 1 s1 s2 Hq2). simpl.
    exists s2. repeat split; try congruence.
    eapply same_filter_deps_trans; eassumption.
Qed.

(** X5.  [setPageSize(n)] leaves the hook on page 0 with
    [allDataLoaded] false and page size [n].  When it changes the page
    or the page size it starts exactly one fetch, whose query asks for
    the rows [0 .. n - 1]; when both stay as they were it starts none. *)
Theorem setPageSize_restarts (n : Z) (st : State) (firm : string)
    (eventIdsFilter : option (list string)) :
  firm_of env = Some firm ->
  let st' := fst (dispatch env (setPageSizeWithReset n) st) in
  let started := snd (dispatch env (setPageSizeWithReset n) st) in
  currentPage st' = 0%Z /\ allDataLoaded st' = false /\ pageSize st' = n
  /\ (currentPage st = 0%Z /\ pageSize st = n -> started = [])
  /\ (currentPage st <> 0%Z \/ pageSize st <> n ->
      exists f q, started = [f]
                  /\ fetch_query env firm f eventIdsFilter
                     = (q ++ [Q_range 0 (n - 1)])%list).
Proof.
  intros Hfirm. cbv zeta.
  set (h := setPageSizeWithReset n).
  assert (Hsame : same_filter_deps st (h st) = true) by deps_refl.
  destruct (same_fetch_deps st (h st)) eqn:Hfetch.
  - rewrite (dispatch_quiet env h st Hfetch). simpl.
    repeat split; try reflexivity.
    intros [Hp|Hs]; exfalso; unfold same_fetch_deps in Hfetch;
      rewrite Hsame in Hfetch; simpl in Hfetch;
      apply andb_true_iff in Hfetch as [H1 H2];
      apply Z.eqb_eq in H1, H2; congruence.
  - rewrite (dispatch_one_fetch h st firm Hfirm Hsame Hfetch). simpl.
    pose proof (fetch_begin_fields (h st) (h st) false
                  (f_isPagination (effect_fetch (h st)))) as Hf.
    cbv zeta in Hf. destruct Hf as (Hp & Hps & Ha & _).
    split; [exact Hp|]. split; [exact Ha|]. split; [exact Hps|]. split.
    + intros [Hp0 Hs0]. exfalso. unfold same_fetch_deps in Hfetch.
      rewrite Hsame in Hfetch. simpl in Hfetch.
      rewrite Hp0, Hs0, !Z.eqb_refl in Hfetch. discriminate.
    + intros _. eexists. eexists. split; [reflexivity|].
      unfold fetch_query, build_query, effect_fetch, h, setPageSizeWithReset.
      cbn [f_render currentPage pageSize setPageSize setAllDataLoaded
           setCurrentPage].
      replace (0 * n + n - 1)%Z with (n - 1)%Z by lia.
      reflexivity.
Qed.

(** X6.  A fetch that fails empties the buffer, whatever page was shown:
    every fetch the hook starts is a non-append fetch, and its failure
    sets [data] to the empty list, lowers the busy flag of its flavour,
    and leaves the total count, the page, [allDataLoaded] and the
    first-load mark as they were; no effect runs afterwards. *)
Theorem failed_fetch_clears_buffer {B : Backend} (h : State -> State)
    (st st' : State) (message : string) :
  Forall (fun f =>
            let after := fetch_end env f (Reply_error message) st' in
            data after = []
            /\ totalCount after = totalCount st'
            /\ currentPage after = currentPage st'
            /\ allDataLoaded after = allDataLoaded st'
            /\ isFirstLoad after = isFirstLoad st'
            /\ (if f_isPagination f then paginationLoading after
                else loading after) = false
            /\ dispatch env (fetch_end env f (Reply_error message)) st'
               = (after, []))
         (snd (dispatch env h st)).
Proof.
  eapply Forall_impl; [|apply commit_fetches].
  intros f Hf. cbv zeta.
  pose proof (dispatch_quiet env (fetch_end env f (Reply_error message)) st'
                (fetch_end_quiet env f (Reply_error message) st')) as Hq.
  split; [|split; [|split; [|split; [|split; [|split; [|exact Hq]]]]]];
    unfold fetch_end; rewrite Hf; simpl;
    destruct (f_isPagination f); reflexivity.
Qed.

End Reach.

(** ** What a page holds *)

Section Pages.

Context {B : Backend}.
Variable env : Env.

Lemma matches_tail (r : Row) (P : query) (col : string) (asc : bool) (a b : Z) :
  matches r (P ++ [Q_order col asc; Q_range a b])%list = matches r P.
Proof. rewrite matches_app. simpl. apply andb_true_r. Qed.

(** X7.  The count a fetch reports depends on the search and the filters
    only: fetches that differ in page, page size or sort report the same
    count over the same table. *)
Theorem count_independent_of_page (table : list Row) (firm : string)
    (st st' : State) (ids : option (list string)) :
  isSearchActive st' = isSearchActive st ->
  debouncedSearchTerm st' = debouncedSearchTerm st ->
  activeFilters st' = activeFilters st ->
  snd (run_query table (build_query env firm st' ids))
  = snd (run_query table (build_query env firm st ids)).
Proof.
  intros H1 H2 H3. unfold run_query; simpl. do 2 f_equal.
  apply filter_ext. intros r.
  rewrite !build_query_eq, !matches_tail.
  unfold own_clauses. now rewrite H1, H2, H3.
Qed.

Lemma window_page (ps p : Z) (rows : list Row) :
  (0 <= p)%Z -> (0 <= ps)%Z ->
  page_rows ps p rows
  = firstn (Z.to_nat ps) (skipn (Z.to_nat p * Z.to_nat ps) rows).
Proof.
  intros Hp Hps. unfold page_rows, window.
  replace (p * ps + ps - 1 - p * ps + 1)%Z with ps by lia.
  now rewrite Z2Nat.inj_mul by lia.
Qed.

Lemma pages_concat (ps : nat) (rows : list Row) (k : nat) :
  List.concat (map (fun i => firstn ps (skipn (i * ps) rows)) (seq 0 k))
  = firstn (k * ps) rows.
Proof.
  induction k as [|k IH]; [reflexivity|].
  rewrite seq_S, map_app, concat_app, IH. simpl. rewrite app_nil_r.
  rewrite <- (firstn_skipn (k * ps) (firstn (ps + k * ps) rows)).
  rewrite firstn_firstn, Nat.min_l by lia.
  f_equal. rewrite skipn_firstn_comm. f_equal. lia.
Qed.

(** X8.  The row ranges of successive pages tile the result: page [p]
    holds the [pageSize] rows after the first [p * pageSize] (fewer at
    the end), and pages [0 .. k - 1] put one after the other are the
    first [k * pageSize] rows, with no gap and no overlap. *)
Theorem pages_tile (ps : Z) (rows : list Row) (k : nat) (p : Z) :
  (0 < ps)%Z -> (0 <= p)%Z ->
  List.concat (map (fun i => page_rows ps (Z.of_nat i) rows) (seq 0 k))
  = firstn (k * Z.to_nat ps) rows
  /\ List.length (page_rows ps p rows)
     = Nat.min (Z.to_nat ps) (List.length rows - Z.to_nat p * Z.to_nat ps)
  /\ (page_rows ps p rows ++ skipn (Z.to_nat (p + 1) * Z.to_nat ps) rows)%list
     = skipn (Z.to_nat p * Z.to_nat ps) rows.
Proof.
  intros Hps Hp. split; [|split].
  - rewrite <- pages_concat. f_equal. apply map_ext. intros i.
    rewrite window_page by lia. now rewrite Nat2Z.id.
  - rewrite window_page by lia. now rewrite length_firstn, length_skipn.
  - rewrite window_page by lia.
    replace (Z.to_nat (p + 1) * Z.to_nat ps)%nat
      with (Z.to_nat ps + Z.to_nat p * Z.to_nat ps)%nat
      by (rewrite Z2Nat.inj_add by lia; simpl; lia).
    rewrite <- skipn_skipn. apply firstn_skipn.
Qed.

Lemma run_query_rows (table : list Row) (firm : string) (st : State)
    (ids : option (list string)) :
  builders_append (config env) ->
  fst (run_query table (build_query env firm st ids))
  = page_rows (pageSize st) (currentPage st)
      (sort_rows (sortBy st) (match sortOrder st with asc => true | desc => false end)
         (filter (fun r => matches r (build_query env firm st ids)) table)).
Proof.
  intros Hb. unfold run_query; simpl.
  rewrite build_query_eq at 1. rewrite (fold_builders_append env) by exact Hb.
  rewrite fold_left_app.
  rewrite (post_filters
             (own_clauses env firm st ids
              ++ flat_map (added (config env))
                   (finalRemainingFilters (config env)
                      (otherFilters (activeFilters st))))%list);
    [reflexivity|].
  rewrite forallb_app, own_clauses_filters, added_filters; auto.
Qed.

(** X9.  With custom builders that only append filters, the rows a
    fetch is answered with are the page window of the sorted matching
    rows, so they are never more than [pageSize]; consequently the
    buffer after the completion of a fetch the hook started holds at
    most one page. *)
Theorem fetched_rows_are_one_page (table : list Row) (firm : string)
    (st : State) (ids : option (list string)) :
  builders_append (config env) ->
  let q := build_query env firm st ids in
  fst (run_query table q)
  = page_rows (pageSize st) (currentPage st)
      (sort_rows (sortBy st) (match sortOrder st with asc => true | desc => false end)
         (filter (fun r => matches r q) table))
  /\ (List.length (fst (run_query table q)) <= Z.to_nat (pageSize st))%nat
  /\ forall count st',
       (List.length
          (data (fetch_end env (effect_fetch st)
                   (Reply_ok (Some (fst (run_query table q))) count) st'))
        <= Z.to_nat (pageSize st))%nat.
Proof.
  intros Hb q.
  assert (Hrows : fst (run_query table q)
            = page_rows (pageSize st) (currentPage st)
                (sort_rows (sortBy st)
                   (match sortOrder st with asc => true | desc => false end)
                   (filter (fun r => matches r q) table))).
  { now apply run_query_rows. }
  assert (Hlen : (List.length (fst (run_query table q))
                  <= Z.to_nat (pageSize st))%nat).
  { rewrite Hrows. unfold page_rows, window. rewrite length_firstn.
    etransitivity; [apply Nat.le_min_l|].
    apply Nat.eq_le_incl. f_equal. lia. }
  split; [exact Hrows|]. split; [exact Hlen|].
  intros count st'.
  replace (data (fetch_end env (effect_fetch st)
                   (Reply_ok (Some (fst (run_query table q))) count) st'))
    with (processedResult env (Some (fst (run_query table q)))).
  - now rewrite processedResult_length.
  - unfold fetch_end, effect_fetch; simpl.
    destruct ((0 <? currentPage st)%Z && _), (isFirstLoad st); reflexivity.
Qed.

End Pages.

(** ** Keys that change nothing *)

Section InertKeys.

Context {B : Backend}.
Variable env : Env.

Lemma includes_app (a b : list string) (x : string) :
  includes (a ++ b) x = includes a x || includes b x.
Proof. apply existsb_app. Qed.

Lemma includes_insert (fs1 fs2 : list string) (k x : string) :
  (x =? k) = false ->
  includes (fs1 ++ k :: fs2) x = includes (fs1 ++ fs2) x.
Proof.
  intros H. rewrite !includes_app. unfold includes at 2. simpl.
  now rewrite H.
Qed.

Lemma not_status_key (k x : string) :
  includes quotation_keys k = false -> In x quotation_keys -> (x =? k) = false.
Proof.
  intros H Hx. apply String.eqb_neq. intros ->.
  unfold includes in H.
  assert (Ht : existsb (String.eqb k) quotation_keys = true).
  { apply existsb_exists. exists k. split; [exact Hx | apply String.eqb_refl]. }
  congruence.
Qed.

Lemma reserved_cases (k : string) :
  reserved k = true -> In k (roleKeys ++ staffStatusKeys).
Proof.
  unfold reserved, includes. intros H.
  apply existsb_exists in H as (x & Hx & E).
  apply String.eqb_eq in E. now subst.
Qed.

Lemma reserved_not_status (k : string) :
  reserved k = true -> includes quotation_keys k = false.
Proof.
  intros H. apply reserved_cases in H. simpl in H.
  repeat (destruct H as [<-|H]; [reflexivity|]). contradiction.
Qed.

Lemma quotation_status_insert (td : string) (fs1 fs2 : list string) (k : string) :
  includes quotation_keys k = false ->
  quotation_status td (fs1 ++ k :: fs2) = quotation_status td (fs1 ++ fs2).
Proof.
  intros H. unfold quotation_status.
  rewrite !(includes_insert fs1 fs2 k)
    by (apply not_status_key; [exact H | simpl; tauto]).
  reflexivity.
Qed.

(** The query reads the active filters through three things only. *)
Lemma build_query_congr (firm : string) (st : State) (fs fs' : list string)
    (ids : option (list string)) :
  ((tableName (config env) =? "quotations") = true ->
   quotation_status (today env) fs' = quotation_status (today env) fs) ->
  grouped_clauses (otherFilters fs') = grouped_clauses (otherFilters fs) ->
  (forall q,
      fold_left (apply_builder (config env))
        (finalRemainingFilters (config env) (otherFilters fs')) q
      = fold_left (apply_builder (config env))
          (finalRemainingFilters (config env) (otherFilters fs)) q) ->
  build_query env firm (setActiveFilters fs' st) ids
  = build_query env firm (setActiveFilters fs st) ids.
Proof.
  intros Hq Hg Hb. rewrite !build_query_eq. unfold own_clauses.
  cbn [activeFilters isSearchActive debouncedSearchTerm sortBy sortOrder
       currentPage pageSize setActiveFilters].
  rewrite Hg, Hb.
  destruct (tableName (config env) =? "quotations"); [|reflexivity].
  now rewrite Hq.
Qed.

Lemma respond_congr (db : Database) (firm : string) (f : Fetch)
    (fs fs' : list string) :
  roleFilters fs' = roleFilters fs
  \/ (tableName (config env) =? "events") = false ->
  (forall ids, build_query env firm (setActiveFilters fs' (f_render f)) ids
               = build_query env firm (setActiveFilters fs (f_render f)) ids) ->
  respond db env firm (with_filters fs' f) = respond db env firm (with_filters fs f).
Proof.
  intros Hrole Hq. unfold respond, fetch_query, with_filters.
  cbn [f_render activeFilters setActiveFilters].
  destruct Hrole as [Hr|Hev].
  - unfold needs_prefilter, prefilter_query, roleConditions.
    now rewrite Hr, Hq.
  - unfold needs_prefilter. rewrite Hev. simpl. now rewrite Hq.
Qed.

Lemma otherFilters_insert (fs1 fs2 : list string) (k : string) :
  otherFilters (fs1 ++ k :: fs2)
  = if reserved k then otherFilters (fs1 ++ fs2)
    else (otherFilters fs1 ++ k :: otherFilters fs2)%list.
Proof.
  unfold otherFilters. rewrite !filter_app. cbn [filter].
  fold (reserved k). now destruct (reserved k).
Qed.

Lemma roleFilters_insert (fs1 fs2 : list string) (k : string) :
  includes roleKeys k = false ->
  roleFilters (fs1 ++ k :: fs2) = roleFilters (fs1 ++ fs2).
Proof.
  intros H. unfold roleFilters. rewrite !filter_app. cbn [filter].
  now rewrite H.
Qed.

(** X10.  The reserved keys are inert where the pre-filter does not read
    them: a staff-status key ([staff_incomplete], [staff_complete],
    [no_staff]) on any table, and a role key on any table but events,
    can be added to the active filters without changing the query or
    the answer to the fetch. *)
Theorem reserved_keys_are_inert (db : Database) (firm : string) (f : Fetch)
    (fs1 fs2 : list string) (k : string) :
  includes staffStatusKeys k = true
  \/ (includes roleKeys k = true /\ (tableName (config env) =? "events") = false) ->
  (forall ids,
      fetch_query env firm (with_filters (fs1 ++ k :: fs2) f) ids
      = fetch_query env firm (with_filters (fs1 ++ fs2) f) ids)
  /\ respond db env firm (with_filters (fs1 ++ k :: fs2) f)
     = respond db env firm (with_filters (fs1 ++ fs2) f).
Proof.
  intros H.
  assert (Hres : reserved k = true).
  { unfold reserved. rewrite includes_app.
    destruct H as [H|[H _]]; rewrite H; [apply orb_true_r | reflexivity]. }
  assert (Hother : otherFilters (fs1 ++ k :: fs2) = otherFilters (fs1 ++ fs2)).
  { rewrite otherFilters_insert. now rewrite Hres. }
  assert (Hq : forall ids,
             build_query env firm (setActiveFilters (fs1 ++ k :: fs2) (f_render f)) ids
             = build_query env firm (setActiveFilters (fs1 ++ fs2) (f_render f)) ids).
  { intros ids. apply build_query_congr.
    - intros _. apply quotation_status_insert, reserved_not_status, Hres.
    - now rewrite Hother.
    - intros q. now rewrite Hother. }
  split; [exact Hq|].
  apply respond_congr; [|exact Hq].
  destruct H as [H|[_ H]]; [left | now right].
  apply roleFilters_insert.
  unfold includes in *. apply existsb_exists in H as (x & Hx & E).
  apply String.eqb_eq in E. subst x. simpl in Hx.
  repeat (destruct Hx as [<-|Hx]; [reflexivity|]). contradiction.
Qed.

Lemma filterGroups_insert (o1 o2 : list string) (k : string) :
  fieldMappings k = None ->
  filterGroups (o1 ++ k :: o2) = filterGroups (o1 ++ o2).
Proof.
  intros H. unfold filterGroups. rewrite !fold_left_app. simpl.
  unfold group_step at 2. now rewrite H.
Qed.

Lemma groupedFilters_insert (o1 o2 : list string) (k : string) :
  fieldMappings k = None ->
  groupedFilters (o1 ++ k :: o2) = groupedFilters (o1 ++ o2).
Proof.
  intros H. unfold groupedFilters. rewrite !filter_app. cbn [filter].
  now rewrite H.
Qed.

Lemma groupedFilters_mapped (o : list string) (k : string) :
  fieldMappings k = None -> includes (groupedFilters o) k = false.
Proof.
  intros H. apply existsb_none. intros y Hy.
  unfold groupedFilters in Hy. apply filter_In in Hy as [_ Hy].
  apply String.eqb_neq. intros ->. now rewrite H in Hy.
Qed.

Lemma remainingFilters_insert (o1 o2 : list string) (k : string) :
  fieldMappings k = None ->
  exists R1 R2,
    remainingFilters (o1 ++ k :: o2) = (R1 ++ k :: R2)%list
    /\ remainingFilters (o1 ++ o2) = (R1 ++ R2)%list.
Proof.
  intros H. unfold remainingFilters.
  rewrite (groupedFilters_insert o1 o2 k H), !filter_app. cbn [filter].
  rewrite (groupedFilters_mapped _ k H). simpl.
  eexists. eexists. split; reflexivity.
Qed.

Lemma finalRemainingFilters_insert (o1 o2 : list string) (k : string) :
  fieldMappings k = None ->
  (tableName (config env) =? "quotations") && includes quotation_keys k = false ->
  exists F1 F2,
    finalRemainingFilters (config env) (o1 ++ k :: o2) = (F1 ++ k :: F2)%list
    /\ finalRemainingFilters (config env) (o1 ++ o2) = (F1 ++ F2)%list.
Proof.
  intros Hm Hq.
  destruct (remainingFilters_insert o1 o2 k Hm) as (R1 & R2 & E1 & E2).
  unfold finalRemainingFilters. rewrite E1, E2.
  destruct (tableName (config env) =? "quotations"); [|eauto].
  simpl in Hq.
  assert (Hk : forall x, In x quotation_keys -> (x =? k) = false)
    by (intros x; now apply not_status_key).
  rewrite !(includes_insert R1 R2 k) by (apply Hk; simpl; tauto).
  rewrite !filter_app. cbn [filter].
  assert (E : forall x, In x quotation_keys -> (k =? x) = false).
  { intros x Hx. rewrite String.eqb_sym. now apply Hk. }
  rewrite !E by (simpl; tauto). rewrite !andb_false_r.
  eexists. eexists. split; reflexivity.
Qed.

(** X11.  An unknown filter key is a no-op: a key that is not reserved,
    for which the look-up in [fieldMappings] is undefined (so neither an
    entry of the table nor a name inherited from [Object.prototype],
    such as [constructor], which is grouped like a mapped key) and that
    has no custom builder (and, on quotations, is not one of the four
    status keys) can be added to the active filters at any position
    without changing the query or the answer to the fetch; it raises no
    error. *)
Theorem unknown_key_is_inert (db : Database) (firm : string) (f : Fetch)
    (fs1 fs2 : list string) (k : string) :
  unknown_key (config env) k ->
  (forall ids,
      fetch_query env firm (with_filters (fs1 ++ k :: fs2) f) ids
      = fetch_query env firm (with_filters (fs1 ++ fs2) f) ids)
  /\ respond db env firm (with_filters (fs1 ++ k :: fs2) f)
     = respond db env firm (with_filters (fs1 ++ fs2) f).
Proof.
  intros (Hres & Hm & Hb & Hq).
  assert (Hrole : includes roleKeys k = false).
  { unfold reserved in Hres. rewrite includes_app in Hres.
    now apply orb_false_elim in Hres as [H _]. }
  assert (Ho1 : otherFilters (fs1 ++ k :: fs2)
                = (otherFilters fs1 ++ k :: otherFilters fs2)%list).
  { rewrite otherFilters_insert. now rewrite Hres. }
  assert (Ho2 : otherFilters (fs1 ++ fs2)
                = (otherFilters fs1 ++ otherFilters fs2)%list).
  { unfold otherFilters. apply filter_app. }
  assert (Hquery : forall ids,
             build_query env firm (setActiveFilters (fs1 ++ k :: fs2) (f_render f)) ids
             = build_query env firm (setActiveFilters (fs1 ++ fs2) (f_render f)) ids).
  { intros ids. apply build_query_congr.
    - intros Ht. rewrite Ht in Hq. simpl in Hq.
      now apply quotation_status_insert.
    - rewrite Ho1, Ho2. unfold grouped_clauses.
      now rewrite (filterGroups_insert _ _ k Hm).
    - intros q. rewrite Ho1, Ho2.
      destruct (finalRemainingFilters_insert (otherFilters fs1) (otherFilters fs2)
                  k Hm Hq) as (F1 & F2 & E1 & E2).
      rewrite E1, E2, !fold_left_app. simpl.
      unfold apply_builder at 2. now rewrite Hb. }
  split; [exact Hquery|].
  apply respond_congr; [left; now apply roleFilters_insert | exact Hquery].
Qed.

(** X12.  A key with a static mapping never reaches a custom builder:
    every key handed to the custom builders is an active key that is
    neither reserved nor mapped.  (So a [queryBuilder] configured for a
    mapped key, such as [pending], is never called.) *)
Theorem builders_get_unmapped_keys (fs : list string) :
  Forall (fun k => In k fs /\ reserved k = false /\ fieldMappings k = None)
         (finalRemainingFilters (config env) (otherFilters fs)).
Proof.
  apply Forall_forall. intros k Hk.
  assert (Hrem : In k (remainingFilters (otherFilters fs))).
  { unfold finalRemainingFilters in Hk.
    destruct (tableName (config env) =? "quotations"); [|exact Hk].
    now apply filter_In in Hk as [Hk _]. }
  unfold remainingFilters in Hrem. apply filter_In in Hrem as [Ho Hng].
  unfold otherFilters in Ho. apply filter_In in Ho as [Hin Hres].
  split; [exact Hin|]. split.
  - unfold reserved. now apply negb_true_iff in Hres.
  - destruct (fieldMappings k) as [m|] eqn:E; [|reflexivity].
    exfalso. apply negb_true_iff in Hng.
    assert (Ht : includes (groupedFilters (otherFilters fs)) k = true).
    { apply existsb_exists. exists k. split; [|apply String.eqb_refl].
      unfold groupedFilters. apply filter_In. split.
      - unfold otherFilters. apply filter_In. now split.
      - now rewrite E. }
    congruence.
Qed.

End InertKeys.

(** ** The pre-filter of events, the status keys and blank searches *)

Section PrefilterAndStatus.

Context {B : Backend}.
Variable env : Env.

Lemma includes_In (ks : list string) (k : string) :
  includes ks k = true <-> In k ks.
Proof.
  unfold includes. rewrite existsb_exists. split.
  - intros (x & Hx & E). apply String.eqb_eq in E. now subst.
  - intros H. exists k. split; [exact H | apply String.eqb_refl].
Qed.

Lemma includes_not_In (ks : list string) (k : string) :
  includes ks k = false <-> ~ In k ks.
Proof.
  rewrite <- includes_In. destruct (includes ks k); split; congruence.
Qed.

Lemma uniq_from_spec (seen xs : list string) :
  NoDup (uniq_from seen xs)
  /\ forall x, In x (uniq_from seen xs) <-> In x xs /\ ~ In x seen.
Proof.
  revert seen; induction xs as [|y xs IH]; intros seen; simpl.
  - split; [constructor | tauto].
  - destruct (includes seen y) eqn:E.
    + destruct (IH seen) as [Hnd Hin]. split; [exact Hnd|].
      intros x. rewrite Hin. apply includes_In in E.
      split; [tauto|]. intros [[<-|H] Hn]; tauto.
    + destruct (IH (y :: seen)) as [Hnd Hin].
      apply includes_not_In in E. split.
      * constructor; [|exact Hnd]. rewrite Hin. simpl. tauto.
      * intros x. simpl. rewrite Hin. simpl.
        destruct (String.eqb_spec y x) as [->|Hne]; [tauto|]. tauto.
Qed.

(** X13.  The identifiers handed to [in('id', ...)] by the pre-filter
    are never an empty list and never repeat: they are the event ids of
    the assignment rows, each once, or the single all-zero identifier
    when there is none. *)
Theorem eventIdsFilter_shape (assignments : list Row) :
  let ids := eventIdsFilter_of assignments in
  ids <> []
  /\ NoDup ids
  /\ forall i,
       In i ids
       <-> (exists a, In a assignments /\ a "event_id" = Some i)
           \/ (i = no_match_id
               /\ forall a, In a assignments -> a "event_id" = None).
Proof.
  cbv zeta. unfold eventIdsFilter_of, uniq. cbv zeta.
  match goal with |- context [uniq_from [] ?l] => set (raw := l) end.
  assert (Hraw : forall i, In i raw
                           <-> exists a, In a assignments /\ a "event_id" = Some i).
  { intros i. unfold raw. rewrite in_flat_map. split.
    - intros (a & Ha & Hi). exists a. split; [exact Ha|].
      destruct (a "event_id"); [destruct Hi as [->|[]]; reflexivity | contradiction].
    - intros (a & Ha & Hi). exists a. split; [exact Ha|]. rewrite Hi. now left. }
  destruct (uniq_from_spec [] raw) as [Hnd Hin].
  destruct (uniq_from [] raw) as [|j js] eqn:E; cbn [List.length Nat.eqb].
  - split; [discriminate|]. split; [repeat constructor; intros []|].
    intros i. split.
    + intros [<-|[]]. right. split; [reflexivity|].
      intros a Ha. destruct (a "event_id") as [e|] eqn:Ee; [|reflexivity].
      exfalso. assert (Hi : In e raw) by (apply Hraw; eauto).
      assert (Hu : In e []) by (apply Hin; split; [exact Hi | intros []]).
      exact Hu.
    + intros [(a & Ha & He)|[-> _]]; [|now left].
      exfalso. assert (Hi : In i raw) by (apply Hraw; eauto).
      assert (Hu : In i []) by (apply Hin; split; [exact Hi | intros []]).
      exact Hu.
  - split; [discriminate|]. split; [exact Hnd|].
    intros i. rewrite Hin, Hraw. split; [tauto|].
    intros [H|[_ Hnone]]; [split; [exact H | intros []]|].
    exfalso. assert (Hj : In j raw) by (apply Hin; now left).
    apply Hraw in Hj as (a & Ha & He). rewrite (Hnone a Ha) in He. discriminate.
Qed.

Lemma window_nil (a b : Z) : window a b [] = [].
Proof. unfold window. now rewrite skipn_nil, firstn_nil. Qed.

(** X14.  The pre-filter fails closed: when role filters are active on
    events and no assignment of the workspace has one of the roles, the
    fetch is answered with no rows and count 0 (no event carrying the
    all-zero identifier), instead of dropping the filter.  The custom
    builders are taken to append filters, and the backend to return no
    rows when ordering none. *)
Theorem prefilter_fails_closed (db : Database) (firm : string) (f : Fetch) :
  builders_append (config env) ->
  (forall col asc, sort_rows col asc [] = []) ->
  needs_prefilter (config env) (activeFilters (f_render f)) = true ->
  (forall a, In a (db "event_staff_assignments") ->
             matches a (prefilter_query firm (activeFilters (f_render f))) = false) ->
  (forall r, In r (db (tableName (config env))) ->
             has_value r "id" no_match_id = false) ->
  respond db env firm f = Reply_ok (Some []) (Some 0%Z).
Proof.
  intros Hb Hsort Hneed Hnone Hid.
  unfold respond. rewrite Hneed.
  assert (Hpre : fst (run_query (db "event_staff_assignments")
                        (prefilter_query firm (activeFilters (f_render f)))) = []).
  { unfold run_query; simpl. now apply filter_none. }
  rewrite Hpre.
  change (eventIdsFilter_of []) with [no_match_id].
  unfold fetch_query.
  set (q := build_query env firm (f_render f) (Some [no_match_id])).
  assert (Hmatch : filter (fun r => matches r q) (db (tableName (config env))) = []).
  { apply filter_none. intros r Hr. unfold q.
    rewrite build_query_eq, (fold_builders_append env) by exact Hb.
    unfold own_clauses. rewrite !matches_app. simpl.
    rewrite (Hid r Hr). simpl. now rewrite andb_false_r. }
  assert (Hrows : fst (run_query (db (tableName (config env))) q) = []).
  { unfold q. rewrite (run_query_rows env) by exact Hb. fold q.
    rewrite Hmatch, Hsort. apply window_nil. }
  assert (Hcount : snd (run_query (db (tableName (config env))) q) = 0%Z).
  { unfold run_query; simpl. now rewrite Hmatch. }
  destruct (run_query (db (tableName (config env))) q) as [rows count].
  simpl in Hrows, Hcount. now subst.
Qed.

Lemma in_remainingFilters (fs : list string) (k : string) :
  In k (remainingFilters (otherFilters fs))
  <-> In k fs /\ reserved k = false /\ fieldMappings k = None.
Proof.
  unfold remainingFilters, otherFilters. rewrite !filter_In.
  fold (reserved k). rewrite !negb_true_iff. split.
  - intros [[Hin Hres] Hg]. repeat split; try assumption.
    destruct (fieldMappings k) as [m|] eqn:E; [|reflexivity].
    exfalso. apply includes_not_In in Hg. apply Hg.
    unfold groupedFilters. apply filter_In. rewrite E. split; [|reflexivity].
    apply filter_In. fold (reserved k). now rewrite Hres.
  - intros (Hin & Hres & Hm). repeat split; try assumption.
    now apply groupedFilters_mapped.
Qed.

(** X15.  On quotations the mutual exclusions drop both keys of a pair
    that is active together: with [expired] and [valid] both active the
    custom builder of neither is called, while [expired] alone is
    handed to the builders. *)
Theorem expired_and_valid_drop_each_other (fs : list string) :
  tableName (config env) = "quotations" ->
  In "expired" fs ->
  let handed := finalRemainingFilters (config env) (otherFilters fs) in
  (In "valid" fs -> ~ In "expired" handed /\ ~ In "valid" handed)
  /\ (~ In "valid" fs -> In "expired" handed).
Proof.
  intros Ht He. cbv zeta. unfold finalRemainingFilters.
  rewrite Ht, String.eqb_refl.
  set (R := remainingFilters (otherFilters fs)).
  assert (HeR : includes R "expired" = true).
  { apply includes_In, in_remainingFilters. repeat split; [exact He|..];
      vm_compute; reflexivity. }
  split.
  - intros Hv.
    assert (HvR : includes R "valid" = true).
    { apply includes_In, in_remainingFilters. repeat split; [exact Hv|..];
        vm_compute; reflexivity. }
    rewrite HeR, HvR. split; intros H; apply filter_In in H as [_ H];
      cbn in H; rewrite ?andb_false_r in H; discriminate.
  - intros Hv.
    assert (HvR : includes R "valid" = false).
    { apply includes_not_In. intros H. apply in_remainingFilters in H. tauto. }
    rewrite HeR, HvR. apply filter_In. split.
    + now apply includes_In.
    + cbn. now rewrite !andb_false_r.
Qed.

Lemma trim_all_white (s : string) : all_white s = true -> trim s = "".
Proof.
  unfold trim. intros H.
  assert (E : trimStart s = "").
  { induction s as [|c s IH]; simpl in *; [reflexivity|].
    apply andb_true_iff in H as [Hc Hs]. rewrite Hc. now apply IH. }
  now rewrite E.
Qed.

(** X16.  A search term made of white space only is no search: with such
    a debounced term the composed query is the one of an inactive
    search, and applying such a term in the search box changes no state
    and starts no fetch. *)
Theorem blank_search_is_no_search (firm : string) (st : State)
    (ids : option (list string)) :
  all_white (debouncedSearchTerm st) = true ->
  build_query env firm st ids
  = build_query env firm (setIsSearchActive false st) ids
  /\ (all_white (searchTerm st) = true ->
      dispatch env handleSearchApply st = (st, [])).
Proof.
  intros H. split.
  - apply trim_all_white in H.
    unfold build_query, search_clauses.
    cbn [isSearchActive debouncedSearchTerm activeFilters sortBy sortOrder
         currentPage pageSize setIsSearchActive].
    rewrite H. simpl. now rewrite andb_false_r.
  - intros Hs. apply dispatch_noop.
    unfold handleSearchApply. now rewrite (trim_all_white _ Hs).
Qed.

End PrefilterAndStatus.

(** ** The last page and the assignments hook *)

Section LastPage.

Context {B : Backend}.
Variable env : Env.

(** X17.  When the result is an exact number of full pages, the last
    full page does not end the list: after it [allDataLoaded] is still
    false, the next page is empty, and its arrival replaces the buffer
    by the empty list and only then sets [allDataLoaded]. *)
Theorem full_last_page_then_empty (st st' : State) (sorted : list Row)
    (count : option Z) :
  (0 < pageSize st)%Z -> (0 <= currentPage st)%Z ->
  Z.of_nat (List.length sorted) = ((currentPage st + 1) * pageSize st)%Z ->
  let page := page_rows (pageSize st) (currentPage st) sorted in
  let next := page_rows (pageSize st) (currentPage st + 1) sorted in
  let st_next := setCurrentPage (currentPage st + 1)%Z st in
  allDataLoaded (fetch_end env (effect_fetch st) (Reply_ok (Some page) count) st')
  = false
  /\ next = []
  /\ data (fetch_end env (effect_fetch st_next) (Reply_ok (Some next) count) st') = []
  /\ allDataLoaded
       (fetch_end env (effect_fetch st_next) (Reply_ok (Some next) count) st')
     = true.
Proof.
  intros Hps Hp Hlen. cbv zeta.
  assert (Hpage : List.length (page_rows (pageSize st) (currentPage st) sorted)
                  = Z.to_nat (pageSize st)).
  { rewrite window_page by lia. rewrite length_firstn, length_skipn.
    apply Nat.min_l. nia. }
  assert (Hnext : page_rows (pageSize st) (currentPage st + 1) sorted = []).
  { rewrite window_page by lia.
    rewrite skipn_all2; [apply firstn_nil|]. nia. }
  split; [|split; [exact Hnext|split]].
  - rewrite fetch_end_allDataLoaded, processedResult_length, Hpage.
    apply Z.ltb_ge. simpl. lia.
  - rewrite Hnext. unfold fetch_end, processedResult, effect_fetch; simpl.
    rewrite andb_false_r.
    destruct ((0 <? currentPage st + 1)%Z && _), (isFirstLoad st); reflexivity.
  - rewrite fetch_end_allDataLoaded, processedResult_length, Hnext.
    apply Z.ltb_lt. simpl. lia.
Qed.

End LastPage.

(** ** The further properties on the concrete configurations *)

Lemma no_workspace_no_fetch_witness :
  firm_of env_no_workspace = None
  /\ snd (dispatch env_no_workspace loadMore (initial env_no_workspace)) = [].
Proof.
  assert (H : firm_of env_no_workspace = None) by reflexivity.
  split; [exact H|].
  exact (proj1 (no_workspace_no_fetch env_no_workspace loadMore
                  (initial env_no_workspace) H)).
Defined.

Lemma filter_change_fetches_witness :
  (firm_of env_50 = Some firm1
   /\ same_filter_deps (cells m3) (toggleSortOrder (cells m3)) = false)
  /\ exists st',
       fst (dispatch env_50 toggleSortOrder (cells m3)) = st'
       /\ currentPage st' = 0%Z.
Proof.
  assert (H1 : firm_of env_50 = Some firm1) by reflexivity.
  assert (H2 : same_filter_deps (cells m3) (toggleSortOrder (cells m3)) = false)
    by (vm_compute; reflexivity).
  split; [split; assumption|].
  destruct (filter_change_fetches env_50 toggleSortOrder (cells m3) firm1 H1 H2)
    as (st' & E & Hp & _).
  exists st'. split; assumption.
Defined.

Lemma setPageSize_restarts_witness :
  firm_of env_50 = Some firm1
  /\ pageSize (fst (dispatch env_50 (setPageSizeWithReset 20%Z) (cells m1))) = 20%Z.
Proof.
  assert (H : firm_of env_50 = Some firm1) by reflexivity.
  split; [exact H|].
  exact (proj1 (proj2 (proj2
           (setPageSize_restarts env_50 20%Z (cells m1) firm1 None H)))).
Defined.

Lemma count_independent_of_page_witness :
  (isSearchActive st_second_page = isSearchActive (initial env_50)
   /\ debouncedSearchTerm st_second_page = debouncedSearchTerm (initial env_50)
   /\ activeFilters st_second_page = activeFilters (initial env_50))
  /\ snd (run_query (B := plain_backend) hundred_rows
            (build_query env_50 firm1 st_second_page None))
     = snd (run_query (B := plain_backend) hundred_rows
              (build_query env_50 firm1 (initial env_50) None)).
Proof.
  split; [repeat split; reflexivity|].
  exact (count_independent_of_page (B := plain_backend) env_50 hundred_rows firm1
           (initial env_50) st_second_page None eq_refl eq_refl eq_refl).
Defined.

Lemma pages_tile_witness :
  ((0 < 50)%Z /\ (0 <= 1)%Z)
  /\ List.concat (map (fun i => page_rows 50 (Z.of_nat i) hundred_rows) (seq 0 2))
     = firstn (2 * Z.to_nat 50) hundred_rows.
Proof.
  assert (H1 : (0 < 50)%Z) by reflexivity.
  assert (H2 : (0 <= 1)%Z) by discriminate.
  split; [split; assumption|].
  exact (proj1 (pages_tile 50%Z hundred_rows 2 1%Z H1 H2)).
Defined.

Lemma fetched_rows_are_one_page_witness :
  builders_append (config env_50)
  /\ (List.length
        (fst (run_query (B := plain_backend) (clients_120 "clients")
                (build_query env_50 firm1 (cells m1) None)))
      <= Z.to_nat (pageSize (cells m1)))%nat.
Proof.
  assert (H : builders_append (config env_50)) by apply list_config_appends.
  split; [exact H|].
  exact (proj1 (proj2
           (fetched_rows_are_one_page (B := plain_backend) env_50
              (clients_120 "clients") firm1 (cells m1) None H))).
Defined.

Lemma reserved_keys_are_inert_witness :
  (includes staffStatusKeys "no_staff" = true
   \/ (includes roleKeys "no_staff" = true
       /\ (tableName (config env_events) =? "events") = false))
  /\ respond (B := plain_backend) studio env_events firm1
       (with_filters (["wedding"] ++ "no_staff" :: ["drone"]) fetch_events)
     = respond (B := plain_backend) studio env_events firm1
         (with_filters (["wedding"] ++ ["drone"]) fetch_events).
Proof.
  assert (H : includes staffStatusKeys "no_staff" = true
              \/ (includes roleKeys "no_staff" = true
                  /\ (tableName (config env_events) =? "events") = false))
    by (left; reflexivity).
  split; [exact H|].
  exact (proj2 (reserved_keys_are_inert (B := plain_backend) env_events studio
                  firm1 fetch_events ["wedding"] ["drone"] "no_staff" H)).
Defined.

Lemma unknown_key_is_inert_witness :
  unknown_key (config env_events) "vip"
  /\ respond (B := plain_backend) studio env_events firm1
       (with_filters (["wedding"] ++ "vip" :: ["has_email"]) fetch_events)
     = respond (B := plain_backend) studio env_events firm1
         (with_filters (["wedding"] ++ ["has_email"]) fetch_events).
Proof.
  assert (H : unknown_key (config env_events) "vip")
    by (repeat split; reflexivity).
  split; [exact H|].
  exact (proj2 (unknown_key_is_inert (B := plain_backend) env_events studio
                  firm1 fetch_events ["wedding"] ["has_email"] "vip" H)).
Defined.

Lemma prefilter_fails_closed_witness :
  (builders_append (config env_events)
   /\ needs_prefilter (config env_events) (activeFilters (f_render fetch_editors))
      = true)
  /\ respond (B := plain_backend) studio env_events firm1 fetch_editors
     = Reply_ok (Some []) (Some 0%Z).
Proof.
  assert (H1 : builders_append (config env_events)) by apply list_config_appends.
  assert (H2 : forall col asc, sort_rows (Backend := plain_backend) col asc [] = [])
    by reflexivity.
  assert (H3 : needs_prefilter (config env_events)
                 (activeFilters (f_render fetch_editors)) = true) by reflexivity.
  assert (H4 : forall a, In a (studio "event_staff_assignments") ->
                 matches (B := plain_backend) a
                   (prefilter_query firm1 (activeFilters (f_render fetch_editors)))
                 = false).
  { intros a [<-|[<-|[<-|[<-|[]]]]]; reflexivity. }
  assert (H5 : forall r, In r (studio (tableName (config env_events))) ->
                 has_value r "id" no_match_id = false).
  { intros r [<-|[<-|[<-|[<-|[]]]]]; reflexivity. }
  split; [split; assumption|].
  exact (prefilter_fails_closed (B := plain_backend) env_events studio firm1
           fetch_editors H1 H2 H3 H4 H5).
Defined.

Lemma expired_and_valid_drop_each_other_witness :
  (tableName (config env_quotations) = "quotations" /\ In "expired" expired_valid
   /\ In "valid" expired_valid)
  /\ ~ In "expired"
       (finalRemainingFilters (config env_quotations) (otherFilters expired_valid)).
Proof.
  assert (H1 : tableName (config env_quotations) = "quotations") by reflexivity.
  assert (H2 : In "expired" expired_valid) by (left; reflexivity).
  assert (H3 : In "valid" expired_valid) by (right; left; reflexivity).
  split; [repeat split; assumption|].
  exact (proj1 (proj1 (expired_and_valid_drop_each_other env_quotations
                         expired_valid H1 H2) H3)).
Defined.

Lemma blank_search_is_no_search_witness :
  all_white (debouncedSearchTerm st_blank_search) = true
  /\ build_query env_50 firm1 st_blank_search None
     = build_query env_50 firm1 (setIsSearchActive false st_blank_search) None.
Proof.
  assert (H : all_white (debouncedSearchTerm st_blank_search) = true)
    by reflexivity.
  split; [exact H|].
  exact (proj1 (blank_search_is_no_search env_50 firm1 st_blank_search None H)).
Defined.

Lemma full_last_page_then_empty_witness :
  ((0 < pageSize st_second_page)%Z /\ (0 <= currentPage st_second_page)%Z
   /\ Z.of_nat (List.length hundred_rows)
      = ((currentPage st_second_page + 1) * pageSize st_second_page)%Z)
  /\ page_rows (pageSize st_second_page) (currentPage st_second_page + 1)
       hundred_rows = [].
Proof.
  assert (H1 : (0 < pageSize st_second_page)%Z) by reflexivity.
  assert (H2 : (0 <= currentPage st_second_page)%Z) by discriminate.
  assert (H3 : Z.of_nat (List.length hundred_rows)
               = ((currentPage st_second_page + 1) * pageSize st_second_page)%Z)
    by (vm_compute; reflexivity).
  split; [repeat split; assumption|].
  exact (proj1 (proj2
           (full_last_page_then_empty (B := plain_backend) env_50 st_second_page
              (initial env_50) hundred_rows None H1 H2 H3))).
Defined.


(** ** Quotation status and role scope on the composed query *)

Section ComposedQuery.

Context {B : Backend}.
Variable env : Env.






(** C9.  For [tasks] and [event_staff_assignments] and a profile whose
    role is not Admin, no call of the composed query tests [firm_id]
    (nor filters through a foreign table).  The composed query starts
    with the scope call, [assigned_to = id] for tasks and the or-filter
    [staff_id = id or freelancer_id = id] for assignments, followed only
    by the pre-filter, search and grouped calls, the custom builders,
    order and range; no pre-filter runs.  So two rows that differ in
    [firm_id] only are matched alike, and (the custom builders
    appending filters) every row matched is assigned to the profile.
    The search columns are taken not to include [firm_id] and the custom
    builders not to add workspace tests. *)
Theorem non_admin_scope_ignores_workspace (firm : string) (st : State)
    (eventIdsFilter : option (list string)) (p : Profile) :
  tableName (config env) = "tasks"
  \/ tableName (config env) = "event_staff_assignments" ->
  profile env = Some p ->
  profile_role p <> "Admin" ->
  profile_id p <> "" ->
  ~ In "firm_id" (searchFields (config env)) ->
  builders_keep workspace_clause (config env) ->
  let q := build_query env firm st eventIdsFilter in
  let scope :=
    if tableName (config env) =? "tasks"
    then Q_eq "assigned_to" (profile_id p)
    else Q_or [c_eq "staff_id" (profile_id p);
               c_eq "freelancer_id" (profile_id p)] None in
  filter workspace_clause q = []
  /\ scope_clauses (config env) (profile env) firm = [scope]
  /\ needs_prefilter (config env) (activeFilters st) = false
  /\ (forall r r' : Row,
         (forall c, c <> "firm_id" -> r c = r' c) -> matches r q = matches r' q)
  /\ q = (fold_left (apply_builder (config env))
            (finalRemainingFilters (config env) (otherFilters (activeFilters st)))
            (scope
             :: match eventIdsFilter with Some ids => [Q_in "id" ids] | None => [] end
             ++ search_clauses (config env) (isSearchActive st)
                  (debouncedSearchTerm st)
             ++ grouped_clauses (otherFilters (activeFilters st)))
          ++ [Q_order (sortBy st)
                (match sortOrder st with asc => true | desc => false end);
              Q_range (currentPage st * pageSize st)
                      (currentPage st * pageSize st + pageSize st - 1)])%list
  /\ (builders_append (config env) ->
      forall r, matches r q = true ->
                if tableName (config env) =? "tasks"
                then r "assigned_to" = Some (profile_id p)
                else r "staff_id" = Some (profile_id p)
                     \/ r "freelancer_id" = Some (profile_id p)).
Proof.
  intros Ht Hp Hrole Hid Hsearch Hb q scope.
  assert (Hadmin : isAdmin (profile env) = false).
  { rewrite Hp; simpl. now apply String.eqb_neq. }
  assert (Hpid : profile_id_of (profile env) = Some (profile_id p)).
  { rewrite Hp; simpl. destruct (profile_id p); [congruence|reflexivity]. }
  assert (Hscope : scope_clauses (config env) (profile env) firm = [scope]).
  { unfold scope_clauses, scope. rewrite Hadmin, Hpid.
    destruct Ht as [Ht|Ht]; rewrite Ht; reflexivity. }
  assert (Hnot : (tableName (config env) =? "events")
                 || (tableName (config env) =? "quotations") = false
                 /\ (tableName (config env) =? "quotations") = false
                 /\ (tableName (config env) =? "events") = false).
  { destruct Ht as [Ht|Ht]; rewrite Ht; repeat split; reflexivity. }
  destruct Hnot as (Hs & Hquot & Hev).
  assert (Hown : own_clauses env firm st eventIdsFilter
                 = (scope
                    :: match eventIdsFilter with
                       | Some ids => [Q_in "id" ids]
                       | None => []
                       end
                    ++ search_clauses (config env) (isSearchActive st)
                         (debouncedSearchTerm st)
                    ++ grouped_clauses (otherFilters (activeFilters st)))%list).
  { unfold own_clauses. now rewrite Hscope, Hquot. }
  assert (Hfree : filter workspace_clause q = []).
  { unfold q. rewrite (filter_build_query env workspace_clause) by exact Hb.
    unfold own_clauses. rewrite Hquot, !filter_app, Hscope.
    rewrite (workspace_free_search env _ _ Hsearch Hs), workspace_free_grouped.
    unfold scope.
    destruct eventIdsFilter, (tableName (config env) =? "tasks"); reflexivity. }
  split; [exact Hfree|]. split; [exact Hscope|]. split; [|split; [|split]].
  - unfold needs_prefilter. now rewrite Hev.
  - intros r r' Hagree. now apply matches_off_workspace.
  - unfold q. now rewrite build_query_eq, Hown.
  - intros Happ r Hm. unfold q in Hm.
    rewrite build_query_eq, (fold_builders_append env) in Hm by exact Happ.
    rewrite Hown, !matches_app in Hm.
    apply andb_true_iff in Hm as [Hm _]. apply andb_true_iff in Hm as [Hm _].
    simpl in Hm. apply andb_true_iff in Hm as [Hm _].
    unfold scope in Hm.
    destruct (tableName (config env) =? "tasks"); simpl in Hm.
    + unfold has_value in Hm. destruct (r "assigned_to"); [|discriminate].
      apply String.eqb_eq in Hm. now subst.
    + rewrite orb_false_r in Hm. apply orb_true_iff in Hm as [Hm|Hm];
        unfold has_value in Hm.
      * left. destruct (r "staff_id"); [|discriminate].
        apply String.eqb_eq in Hm. now subst.
      * right. destruct (r "freelancer_id"); [|discriminate].
        apply String.eqb_eq in Hm. now subst.
Qed.

(** X18.  [useAssignments], called with a profile id and a workspace,
    raises [loading], sends one query, and on its answer shows exactly
    the rows answered and lowers [loading]; every row shown has the
    profile id as [staff_id] and the workspace as [firm_id] (the backend
    ordering rows, not inventing them).  A failure of that fetch keeps
    the list shown before and lowers [loading]; without a profile id or
    a workspace the hook sends nothing and lowers [loading]. *)
Theorem assignments_are_own_and_local (table : list Row) (p : Profile)
    (firm : string) (st : Assignments.State) (message : string) :
  (forall col asc rows, incl (sort_rows col asc rows) rows) ->
  truthy (profile_id p) = true ->
  truthy firm = true ->
  let begun := Assignments.fetchAssignments_begin (Some p) (Some firm) st in
  let after := Assignments.fetchAssignments table (Some p) (Some firm) st in
  (exists q,
      begun = ({| Assignments.assignments := Assignments.assignments st;
                  Assignments.loading := true |}, Some q)
      /\ Assignments.assignments after = fst (run_query table q))
  /\ Assignments.loading after = false
  /\ Forall (fun r => r "staff_id" = Some (profile_id p)
                      /\ r "firm_id" = Some firm)
            (Assignments.assignments after)
  /\ Assignments.fetchAssignments_end (Assignments.Reply_error message) (fst begun)
     = {| Assignments.assignments := Assignments.assignments st;
          Assignments.loading := false |}
  /\ (forall profile currentFirmId,
         profile_id_of profile = None
         \/ currentFirmId = None \/ currentFirmId = Some "" ->
         Assignments.fetchAssignments_begin profile currentFirmId st
         = ({| Assignments.assignments := Assignments.assignments st;
               Assignments.loading := false |}, None)
         /\ Assignments.fetchAssignments table profile currentFirmId st
            = {| Assignments.assignments := Assignments.assignments st;
                 Assignments.loading := false |}).
Proof.
  intros Hsort Hid Hfirm. cbv zeta.
  assert (Hbegin : Assignments.fetchAssignments_begin (Some p) (Some firm) st
            = ({| Assignments.assignments := Assignments.assignments st;
                  Assignments.loading := true |},
               Some (Assignments.assignments_query (profile_id p) firm))).
  { unfold Assignments.fetchAssignments_begin. simpl. now rewrite Hid, Hfirm. }
  unfold Assignments.fetchAssignments. rewrite Hbegin. simpl.
  split; [eexists; split; reflexivity|]. split; [reflexivity|].
  split; [|split; [reflexivity|]].
  - apply Forall_forall. intros r Hr.
    apply Hsort in Hr. apply filter_In in Hr as [_ Hm].
    simpl in Hm. rewrite andb_true_r in Hm.
    apply andb_true_iff in Hm as [H1 H2].
    unfold has_value in H1, H2.
    destruct (r "staff_id") as [x|]; [|discriminate].
    destruct (r "firm_id") as [y|]; [|discriminate].
    apply String.eqb_eq in H1, H2. now subst.
  - intros profile currentFirmId H.
    assert (E : Assignments.fetchAssignments_begin profile currentFirmId st
              = ({| Assignments.assignments := Assignments.assignments st;
                    Assignments.loading := false |}, None)).
    { unfold Assignments.fetchAssignments_begin.
      destruct H as [H|[H|H]]; rewrite H;
        destruct (profile_id_of profile); reflexivity. }
    now rewrite E.
Qed.

End ComposedQuery.



Lemma non_admin_scope_ignores_workspace_witness :
  (profile env_tasks = Some staff /\ profile_role staff <> "Admin"
   /\ profile_id staff <> "" /\ ~ In "firm_id" (searchFields (config env_tasks))
   /\ builders_keep workspace_clause (config env_tasks)
   /\ builders_append (config env_tasks))
  /\ filter workspace_clause
       (build_query env_tasks firm1 (initial env_tasks) None) = []
  /\ (forall r, matches (B := plain_backend) r
                  (build_query env_tasks firm1 (initial env_tasks) None) = true ->
                r "assigned_to" = Some "user-2")
  /\ matches (B := plain_backend) foreign_task
       (build_query env_tasks firm1 (initial env_tasks) None) = true.
Proof.
  assert (H0 : tableName (config env_tasks) = "tasks"
               \/ tableName (config env_tasks) = "event_staff_assignments")
    by (left; reflexivity).
  assert (H1 : profile env_tasks = Some staff) by reflexivity.
  assert (H2 : profile_role staff <> "Admin") by discriminate.
  assert (H3 : profile_id staff <> "") by discriminate.
  assert (H4 : ~ In "firm_id" (searchFields (config env_tasks))).
  { intros [H|[]]. discriminate H. }
  assert (H5 : builders_keep workspace_clause (config env_tasks))
    by (apply list_config_keeps; reflexivity).
  assert (H6 : builders_append (config env_tasks)) by apply list_config_appends.
  split; [exact (conj H1 (conj H2 (conj H3 (conj H4 (conj H5 H6)))))|].
  destruct (non_admin_scope_ignores_workspace (B := plain_backend) env_tasks
              firm1 (initial env_tasks) None staff H0 H1 H2 H3 H4 H5)
    as (Hfree & _ & _ & _ & _ & Hrows).
  split; [exact Hfree|]. split; [exact (Hrows H6) | reflexivity].
Defined.

Lemma loadMore_guard_witness :
  (firm_of env_50 = Some firm1
   /\ paginationLoading (cells call1) = true
   /\ allDataLoaded (cells call1) = false /\ loading (cells call1) = false)
  /\ currentPage (cells (act env_50 loadMore call1))
     = (currentPage (cells call1) + 1)%Z
  /\ List.length (inflight (act env_50 loadMore call1))
     = S (List.length (inflight call1)).
Proof.
  assert (H0 : firm_of env_50 = Some firm1) by reflexivity.
  assert (H1 : paginationLoading (cells call1) = true) by (vm_compute; reflexivity).
  assert (H2 : allDataLoaded (cells call1) = false) by (vm_compute; reflexivity).
  assert (H3 : loading (cells call1) = false) by (vm_compute; reflexivity).
  split; [exact (conj H0 (conj H1 (conj H2 H3)))|].
  exact (proj2 (proj2 (proj2 (loadMore_guard env_50 call1 firm1 H0))) H1 H2 H3).
Defined.

Lemma assignments_are_own_and_local_witness :
  ((forall col asc rows,
       incl (sort_rows (Backend := plain_backend) col asc rows) rows)
   /\ truthy (profile_id staff) = true /\ truthy firm1 = true)
  /\ Forall (fun r : Row => r "staff_id" = Some (profile_id staff)
                            /\ r "firm_id" = Some firm1)
       (Assignments.assignments
          (Assignments.fetchAssignments (B := plain_backend) staff_rows
             (Some staff) (Some firm1) Assignments.initial)).
Proof.
  assert (H : forall col asc rows,
             incl (sort_rows (Backend := plain_backend) col asc rows) rows)
    by (intros col asc rows; apply incl_refl).
  assert (H1 : truthy (profile_id staff) = true) by reflexivity.
  assert (H2 : truthy firm1 = true) by reflexivity.
  split; [exact (conj H (conj H1 H2))|].
  exact (proj1 (proj2 (proj2
           (assignments_are_own_and_local (B := plain_backend) staff_rows staff
              firm1 Assignments.initial "" H H1 H2)))).
Defined.

(** An inherited name among the active keys is grouped like a mapped
    key: it adds a membership test of the column [undefined]. *)
Example inherited_name_is_grouped :
  grouped_clauses (otherFilters ["constructor"; "wedding"])
  = [Q_in "undefined" ["undefined"]; Q_in "event_type" ["Wedding"]].
Proof. vm_compute. reflexivity. Qed.
